(** * mysqltest: a shallow embedding of [mysqltest.go]

    The package spawns a throw-away MySQL / MariaDB server ([Start]) and tears
    it down again ([Stop]).  Almost every statement of the Go code is a call
    into the operating system, so the embedding is a small monad over the
    trace of such calls: the answers of the outside world are given by an
    environment (a record of functions of the history so far), the program
    is written in state-passing style on top of it. *)

From Stdlib Require Import ZArith String Ascii List Lia Bool.
From stdpp Require Import base list strings.
From Equations Require Import Equations.
Import ListNotations.

Local Open Scope string_scope.
Local Open Scope list_scope.

(** ** Go base types *)

(** Go [error] values are identified with their [Error()] text; a nil error
    is [None]. *)
Definition error := string.

(** A call returning [(T, error)]. *)
Inductive result (A : Type) : Type :=
| Ok (a : A)
| Err (e : error).
Arguments Ok {A} a.
Arguments Err {A} e.

(** Go's [int] on the 64-bit targets: two's complement, arithmetic wraps. *)
Definition intSize : Z := 64.
Definition minInt : Z := (- 2 ^ (intSize - 1))%Z.
Definition maxInt : Z := (2 ^ (intSize - 1) - 1)%Z.
Definition wrap_int (z : Z) : Z :=
  ((z - minInt) mod 2 ^ intSize + minInt)%Z.

(** [time.Duration] counts nanoseconds. *)
Definition Duration := Z.
Definition Millisecond : Duration := 1000000%Z.

(** ** The parts of [strings] and [fmt] the package uses *)

Fixpoint strings_HasPrefix (s prefix : string) : bool :=
  match prefix, s with
  | EmptyString, _ => true
  | String p prefix', String c s' => Ascii.eqb c p && strings_HasPrefix s' prefix'
  | String _ _, EmptyString => false
  end.

(** [strings.Contains(s, substr)]. *)
Fixpoint strings_Contains (s substr : string) : bool :=
  strings_HasPrefix s substr
  || match s with
     | EmptyString => false
     | String _ s' => strings_Contains s' substr
     end.

(** [strings.Join(elems, sep)]. *)
Fixpoint strings_Join (elems : list string) (sep : string) : string :=
  match elems with
  | [] => EmptyString
  | [x] => x
  | x :: rest => x +:+ sep +:+ strings_Join rest sep
  end.

Definition newline : string := String (ascii_of_nat 10) EmptyString.

(** ** [os/exec] commands *)

Definition Pid := Z.
Definition Pipe := Z.
Definition DBHandle := Z.

(** [exec.Cmd]: [Args] holds the command line with the command itself as
    [Args[0]]; [Process] is "the underlying process, once started", nil
    before [Start] succeeded. *)
Record Cmd : Type := mkCmd {
  Args : list string;
  Process : option Pid;
}.

Definition exec_Command (name : string) (arg : list string) : Cmd :=
  {| Args := name :: arg; Process := None |}.

(** ** [prepareCommand] *)

(** The loop over [args] that overwrites every empty argument with the two
    quote characters: an in-place update of the slice, index by index. *)
Definition quote_step (args : list string) (i : nat) : list string :=
  match args !! i with
  | Some a => if String.eqb a EmptyString then <[i := "''"]> args else args
  | None => args
  end.

Definition quote_empty_args (args : list string) : list string :=
  foldl quote_step args (seq 0 (length args)).

(** What the loop computes, element by element. *)
Definition quoted (a : string) : string :=
  if String.eqb a EmptyString then "''" else a.

Definition prepareCommand (isRoot : bool) (command : string)
    (args : list string) : Cmd :=
  if negb isRoot then exec_Command command args
  else
    let args := quote_empty_args args in
    exec_Command "su" ["-"; "mysql"; "-c"; strings_Join (command :: args) " "].


(** ** The outside world

    Every call that leaves the process is recorded as an event, together
    with the answer it got.  A trace lists the events in the order they
    happened. *)

Inductive Signal : Type := Interrupt.

Record User : Type := mkUser {
  Username : string;
  Uid : string;
  Gid : string;
}.

Inductive Event : Type :=
| EvTempDir (pattern : string) (r : result string)
| EvMkdirAll (path : string) (perm : Z) (r : option error)
| EvChmod (path : string) (perm : Z) (r : option error)
| EvChown (path : string) (uid gid : Z) (r : option error)
| EvWriteFile (path content : string) (perm : Z) (r : option error)
| EvCombinedOutput (c : Cmd) (out : string) (r : option error)
| EvStderrPipe (c : Cmd) (r : result Pipe)
| EvStdoutPipe (c : Cmd) (r : result Pipe)
| EvCmdStart (c : Cmd) (r : result Pid)
| EvSignal (p : Pid) (sig : Signal) (r : option error)
| EvWait (p : Pid) (r : option error)
| EvReadAll (p : Pipe) (data : string)
| EvClose (p : Pipe)
| EvSqlOpen (dsn : string) (r : result DBHandle)
| EvPing (db : DBHandle) (r : option error)
| EvSleep (d : Duration)
| EvRemoveAll (path : string) (r : option error).

Definition Trace := list Event.

(** The environment answers each call from the history of the calls made
    so far.  [path.Join], [path.Dir] and [strconv.ParseInt] are pure library
    functions; they are left to the environment as well. *)
Record Env : Type := mkEnv {
  env_Current : Trace -> result User;
  env_Lookup : Trace -> string -> result User;
  env_ParseInt : string -> result Z;
  env_Join : string -> string -> string;
  env_Dir : string -> string;
  env_TempDir : Trace -> string -> result string;
  env_MkdirAll : Trace -> string -> Z -> option error;
  env_Chmod : Trace -> string -> Z -> option error;
  env_Chown : Trace -> string -> Z -> Z -> option error;
  env_WriteFile : Trace -> string -> string -> Z -> option error;
  env_LookPath : Trace -> string -> result string;
  env_CombinedOutput : Trace -> Cmd -> string * option error;
  env_StderrPipe : Trace -> Cmd -> result Pipe;
  env_StdoutPipe : Trace -> Cmd -> result Pipe;
  env_CmdStart : Trace -> Cmd -> result Pid;
  env_Signal : Trace -> Pid -> Signal -> option error;
  env_Wait : Trace -> Pid -> option error;
  env_ReadAll : Trace -> Pipe -> string;
  env_SqlOpen : Trace -> string -> result DBHandle;
  env_Ping : Trace -> DBHandle -> option error;
  env_RemoveAll : Trace -> string -> option error;
}.

(** ** The monad

    A computation reads the history, and yields the events it adds and
    either a value or a Go panic. *)

Inductive Outcome (A : Type) : Type :=
| Ret (a : A)
| Panic (msg : string).
Arguments Ret {A} a.
Arguments Panic {A} msg.

Definition M (A : Type) : Type := Trace -> Outcome A * list Event.

Definition ret {A} (a : A) : M A := fun _ => (Ret a, []).

Definition panic {A} (msg : string) : M A := fun _ => (Panic msg, []).

Definition bind {A B} (m : M A) (f : A -> M B) : M B :=
  fun h =>
    match m h with
    | (Ret a, e1) => let '(r, e2) := f a (h ++ e1) in (r, e1 ++ e2)
    | (Panic msg, e1) => (Panic msg, e1)
    end.

(** One call to the outside: ask the environment, log the event. *)
Definition call {A} (answer : Trace -> A) (ev : A -> Event) : M A :=
  fun h => let a := answer h in (Ret a, [ev a]).

(** A query that changes nothing outside is not logged. *)
Definition query {A} (answer : Trace -> A) : M A :=
  fun h => (Ret (answer h), []).

(** [defer d] around a function body: [d] runs when the body returns and
    also when it panics; the result is the body's. *)
Definition defer {A B} (d : M B) (body : M A) : M A :=
  fun h =>
    let '(r, e1) := body h in
    let '(_, e2) := d (h ++ e1) in
    (r, e1 ++ e2).

Declare Scope go_scope.
Delimit Scope go_scope with go.
Notation "x <- m ; k" := (bind m (fun x => k))
  (at level 20, m at level 100, k at level 200, only parsing) : go_scope.

(** *** Early return

    Inside a function returning [R], a statement either falls through with
    a value or has executed [return r]. *)
Definition E (R A : Type) : Type := M (A + R).

Definition pure {R A} (a : A) : E R A := ret (inl a).
Definition return_ {R A} (r : R) : E R A := ret (inr r).
Definition lift {R A} (m : M A) : E R A := bind m (fun a => ret (inl a)).

Definition bindE {R A B} (m : E R A) (f : A -> E R B) : E R B :=
  bind m (fun x => match x with inl a => f a | inr r => ret (inr r) end).

(** [x, err := f(); if err != nil { return onerr(err) }] *)
Definition try {R A} (m : M (result A)) (onerr : error -> R) : E R A :=
  bind m (fun x => match x with Ok a => pure a | Err e => return_ (onerr e) end).

(** [err = f(); if err != nil { return onerr(err) }] *)
Definition check {R} (m : M (option error)) (onerr : error -> R) : E R unit :=
  bind m (fun x => match x with None => pure tt | Some e => return_ (onerr e) end).

Definition func {R} (body : E R R) : M R :=
  bind body (fun x => match x with inl r => ret r | inr r => ret r end).

Notation "x <~ m ; k" := (bindE m (fun x => k))
  (at level 20, m at level 100, k at level 200, only parsing) : go_scope.

Local Open Scope go_scope.

(** ** [retry] *)

(** The closure passed to [retry] writes to a variable it captured; it is a
    function of that captured state [S].  [attempts] is a Go [int]. *)
Definition sleep_then {A} (e1 : list Event) (d : Duration)
    (k : Outcome A * list Event) : Outcome A * list Event :=
  (fst k, e1 ++ EvSleep d :: snd k).

Equations? retry {S : Type} (fn : S -> M (option error * S))
    (attempts : Z) (interval : Duration) (s : S) (h : Trace)
    : Outcome (option error * S) * list Event
    by wf (Z.to_nat (wrap_int (attempts - 1))) lt :=
  retry fn attempts interval s h with fn s h => {
    | (Panic msg, e1) => (Panic msg, e1);
    | (Ret (None, s'), e1) => (Ret (None, s'), e1);
    | (Ret (Some err, s'), e1)
        with Z_le_gt_dec (wrap_int (attempts - 1)) 0 => {
        | left _ => (Ret (Some err, s'), e1);
        | right _ =>
            sleep_then e1 interval
              (retry fn (wrap_int (attempts - 1)) interval s'
                 (h ++ e1 ++ [EvSleep interval])) } }.
Proof.
  unfold wrap_int, minInt, intSize in *.
  change (2 ^ 64)%Z with (2 * 2 ^ (64 - 1))%Z in *.
  set (half := (2 ^ (64 - 1))%Z) in *.
  assert (0 < half)%Z by (subst half; lia).
  set (a := ((attempts - 1 - - half) mod (2 * half))%Z) in *.
  pose proof (Z.mod_pos_bound (attempts - 1 - - half) (2 * half) ltac:(lia)).
  replace (a + - half - 1 - - half)%Z with (a - 1)%Z by lia.
  rewrite Z.mod_small; lia.
Qed.

(** ** The package *)

Record MySQL : Type := mkMySQL {
  dir : string;
  cmd : option Cmd;
  DB : option DBHandle;
  stderr : option Pipe;
  stdout : option Pipe;
  isRoot : bool;
  binPath : string;
  sockFile : string;
}.

(** [mysql.DB = db] *)
Definition set_DB (p : MySQL) (db : DBHandle) : MySQL :=
  mkMySQL (dir p) (cmd p) (Some db) (stderr p) (stdout p)
          (isRoot p) (binPath p) (sockFile p).

(** The file modes of the source, which writes them in octal. *)
Definition mode_0711 : Z := 457.
Definition mode_0644 : Z := 420.

Definition nil_dereference : string :=
  "runtime error: invalid memory address or nil pointer dereference".

Section Program.

Variable env : Env.

(** *** The calls of the standard library *)

Definition user_Current : M (result User) := query (env_Current env).

Definition user_Lookup (name : string) : M (result User) :=
  query (fun h => env_Lookup env h name).

Definition strconv_ParseInt (s : string) : M (result Z) :=
  ret (env_ParseInt env s).

Definition path_Join (a b : string) : string := env_Join env a b.

Definition path_Dir (p : string) : string := env_Dir env p.

Definition ioutil_TempDir (pattern : string) : M (result string) :=
  call (fun h => env_TempDir env h pattern) (EvTempDir pattern).

Definition os_MkdirAll (path : string) (perm : Z) : M (option error) :=
  call (fun h => env_MkdirAll env h path perm) (EvMkdirAll path perm).

Definition os_Chmod (path : string) (perm : Z) : M (option error) :=
  call (fun h => env_Chmod env h path perm) (EvChmod path perm).

Definition os_Chown (path : string) (uid gid : Z) : M (option error) :=
  call (fun h => env_Chown env h path uid gid) (EvChown path uid gid).

Definition ioutil_WriteFile (path content : string) (perm : Z)
    : M (option error) :=
  call (fun h => env_WriteFile env h path content perm)
       (EvWriteFile path content perm).

Definition exec_LookPath (file : string) : M (result string) :=
  query (fun h => env_LookPath env h file).

Definition cmd_CombinedOutput (c : Cmd) : M (string * option error) :=
  call (fun h => env_CombinedOutput env h c)
       (fun r => EvCombinedOutput c (fst r) (snd r)).

Definition cmd_StderrPipe (c : Cmd) : M (result Pipe) :=
  call (fun h => env_StderrPipe env h c) (EvStderrPipe c).

Definition cmd_StdoutPipe (c : Cmd) : M (result Pipe) :=
  call (fun h => env_StdoutPipe env h c) (EvStdoutPipe c).

(** [cmd.Start()] fills in [cmd.Process] when it succeeds, and leaves the
    command as it was when it fails. *)
Definition cmd_Start (c : Cmd) : M (Cmd * option error) :=
  r <- call (fun h => env_CmdStart env h c) (EvCmdStart c) ;
  match r with
  | Ok pid => ret ({| Args := Args c; Process := Some pid |}, None)
  | Err e => ret (c, Some e)
  end.

(** [cmd.Process.Signal(sig)]: a method of [*os.Process] that reads the
    fields of its receiver. *)
Definition Process_Signal (p : option Pid) (sig : Signal)
    : M (option error) :=
  match p with
  | None => panic nil_dereference
  | Some pid => call (fun h => env_Signal env h pid sig) (EvSignal pid sig)
  end.

(** [cmd.Wait()] refuses a command that was not started. *)
Definition cmd_Wait (c : Cmd) : M (option error) :=
  match Process c with
  | None => ret (Some "exec: not started")
  | Some pid => call (fun h => env_Wait env h pid) (EvWait pid)
  end.

Definition ioutil_ReadAll (p : Pipe) : M string :=
  call (fun h => env_ReadAll env h p) (EvReadAll p).

Definition Close (p : Pipe) : M unit :=
  call (fun _ => tt) (fun _ => EvClose p).

Definition sql_Open (dsn : string) : M (result DBHandle) :=
  call (fun h => env_SqlOpen env h dsn) (EvSqlOpen dsn).

Definition db_Ping (db : DBHandle) : M (option error) :=
  call (fun h => env_Ping env h db) (EvPing db).

Definition os_RemoveAll (path : string) : M (option error) :=
  call (fun h => env_RemoveAll env h path) (EvRemoveAll path).

(** *** [findBinPath], [makeDSN], [abort] *)

Definition findBinPath : M (result string) :=
  r <- exec_LookPath "mysqld_safe" ;
  match r with
  | Ok p => ret (Ok (path_Dir p))
  | Err _ => ret (Err "Did not find MySQL / MariaDB executables installed")
  end.

Definition makeDSN (sockDir dbname : string) : string :=
  "root@unix(" +:+ sockDir +:+ ")/" +:+ dbname.

Definition abort (msg : string) (cmd : Cmd) (stderr stdout : Pipe)
    (err : error) : M error :=
  _ <- Process_Signal (Process cmd) Interrupt ;
  _ <- cmd_Wait cmd ;
  serr <- ioutil_ReadAll stderr ;
  sout <- ioutil_ReadAll stdout ;
  _ <- Close stderr ;
  _ <- Close stdout ;
  ret (msg +:+ ": " +:+ err +:+ newline +:+ "OUT: " +:+ sout +:+ newline
       +:+ "ERR: " +:+ serr).

(** *** [Start] *)

Definition StartResult : Type := option MySQL * option error.

Definition fail (err : error) : StartResult := (None, Some err).

Definition config (dataDir sockDir dir : string) : string :=
  "[mysqld]" +:+ newline +:+
  "datadir = " +:+ dataDir +:+ newline +:+
  "socket = " +:+ sockDir +:+ "/mysql.sock" +:+ newline +:+
  "general_log_file = " +:+ dir +:+ "/out.log" +:+ newline +:+
  "general_log = 1" +:+ newline +:+
  "skip-networking" +:+ newline.

(** The closure handed to [retry]; it captures [sockFile] and [mysql] and
    assigns [mysql.DB]. *)
Definition connect (sockFile : string) (mysql : MySQL)
    : M (option error * MySQL) :=
  func (
    let dsn := makeDSN sockFile "test" in
    db <~ try (sql_Open dsn) (fun err => (Some err, mysql)) ;
    _ <~ check (db_Ping db) (fun err => (Some err, mysql)) ;
    pure (None, set_DB mysql db)).

Definition Start : M StartResult :=
  func (
    (* Handle dropping permissions when running as root *)
    me <~ try user_Current fail ;
    let isRoot := String.eqb (Username me) "root" in
    ids <~ (if isRoot then
              mysqlUser <~ try (user_Lookup "mysql") (fun err => fail
                ("Could not find mysql user, which is required when running as root: "
                 +:+ err)) ;
              uid <~ try (strconv_ParseInt (Uid mysqlUser)) fail ;
              gid <~ try (strconv_ParseInt (Gid mysqlUser)) fail ;
              pure (uid, gid)
            else pure (0%Z, 0%Z)) ;
    let mysqlUID := fst ids in
    let mysqlGID := snd ids in
    (* Prepare data directory *)
    dir <~ try (ioutil_TempDir "mysqltest") fail ;
    let dataDir := path_Join dir "data" in
    let sockDir := path_Join dir "sock" in
    let sockFile := path_Join sockDir "mysql.sock" in
    _ <~ check (os_MkdirAll dataDir mode_0711) fail ;
    _ <~ check (os_MkdirAll sockDir mode_0711) fail ;
    _ <~ (if isRoot then
            _ <~ check (os_Chmod dir mode_0711) fail ;
            _ <~ check (os_Chown dataDir mysqlUID mysqlGID) fail ;
            check (os_Chown sockDir mysqlUID mysqlGID) fail
          else pure tt) ;
    (* Write config file; the error it returns is overwritten unread *)
    let configFile := path_Join dir "my.cnf" in
    _ <~ lift (ioutil_WriteFile configFile (config dataDir sockDir dir)
                 mode_0644) ;
    (* Find executables root path *)
    binPath <~ try findBinPath fail ;
    (* Figure out what we are running *)
    let version := prepareCommand isRoot (path_Join binPath "mysql")
                     ["--version"] in
    vout <~ lift (cmd_CombinedOutput version) ;
    _ <~ match snd vout with
         | Some err => return_ (fail ("Failed to get version: " +:+ err
                                      +:+ " -> " +:+ fst vout))
         | None => pure tt
         end ;
    let isMariaDB := strings_Contains (fst vout) "MariaDB" in
    (* Initialize MySQL data directory *)
    _ <~ (if isMariaDB then
            let init := prepareCommand isRoot
                          (path_Join binPath "mysql_install_db")
                          ["--datadir=" +:+ dataDir] in
            iout <~ lift (cmd_CombinedOutput init) ;
            match snd iout with
            | Some err => return_ (fail ("Failed to initialize DB: " +:+ err
                                         +:+ " -> " +:+ fst iout))
            | None => pure tt
            end
          else
            let init := prepareCommand isRoot
                          (path_Join binPath "mysqld_safe")
                          ["--initialize-insecure";
                           "--datadir=" +:+ dataDir] in
            iout <~ lift (cmd_CombinedOutput init) ;
            match snd iout with
            | Some err => return_ (fail ("Failed to initialize DB: " +:+ err
                                         +:+ " -> " +:+ fst iout))
            | None => pure tt
            end) ;
    (* Start MySQL *)
    let cmd := prepareCommand isRoot (path_Join binPath "mysqld_safe")
                 ["--defaults-file=" +:+ configFile] in
    stderr <~ try (cmd_StderrPipe cmd) fail ;
    so <~ lift (cmd_StdoutPipe cmd) ;
    stdout <~ match so with
              | Ok stdout => pure stdout
              | Err err => _ <~ lift (Close stderr) ; return_ (fail err)
              end ;
    started <~ lift (cmd_Start cmd) ;
    let cmd := fst started in
    _ <~ match snd started with
         | Some err =>
             e <~ lift (abort "Failed to start database" cmd stderr stdout
                          err) ;
             return_ (fail e)
         | None => pure tt
         end ;
    let mysql := mkMySQL dir (Some cmd) None (Some stderr) (Some stdout)
                   isRoot binPath sockFile in
    (* Connect to DB, waiting for it to start *)
    r <~ lift (retry (connect sockFile) 1000%Z (10 * Millisecond)%Z mysql) ;
    match fst r with
    | Some err =>
        e <~ lift (abort "Failed to connect to test DB" cmd stderr stdout
                     err) ;
        return_ (fail e)
    | None => pure (Some (snd r), None)
    end).

(** *** [Stop] *)

Definition Stop (p : option MySQL) : M (option error) :=
  match p with
  | None => ret None
  | Some p =>
      defer (os_RemoveAll (dir p)) (func (
        let shutdown :=
          prepareCommand (isRoot p) (path_Join (binPath p) "mysqladmin")
            ["-u"; "root"; "-S"; sockFile p; "shutdown"] in
        sout <~ lift (cmd_CombinedOutput shutdown) ;
        _ <~ match snd sout with
             | Some err => return_ (Some ("Failed to shutdown DB: " +:+ err
                                          +:+ " -> " +:+ fst sout))
             | None => pure tt
             end ;
        _ <~ check (match cmd p with
                    | None => panic nil_dereference
                    | Some c => cmd_Wait c
                    end) Some ;
        _ <~ lift (match stderr p with
                   | Some s => Close s
                   | None => ret tt
                   end) ;
        _ <~ lift (match stdout p with
                   | Some s => Close s
                   | None => ret tt
                   end) ;
        pure None))
  end.

End Program.

(** ** Reading a trace *)

(** The commands run to completion ([CombinedOutput]), with their output
    and exit error, in order. *)
Fixpoint commands (evs : list Event) : list (Cmd * string * option error) :=
  match evs with
  | [] => []
  | EvCombinedOutput c out r :: evs' => (c, out, r) :: commands evs'
  | _ :: evs' => commands evs'
  end.

(** The commands [Start]ed as a background process. *)
Fixpoint spawns (evs : list Event) : list (Cmd * result Pid) :=
  match evs with
  | [] => []
  | EvCmdStart c r :: evs' => (c, r) :: spawns evs'
  | _ :: evs' => spawns evs'
  end.

(** Every command line handed to the operating system. *)
Definition command_lines (evs : list Event) : list Cmd :=
  map (fun x => fst (fst x)) (commands evs) ++ map fst (spawns evs).

Fixpoint count (f : Event -> bool) (evs : list Event) : nat :=
  match evs with
  | [] => 0
  | e :: evs' => (if f e then 1 else 0) + count f evs'
  end.

Definition is_SqlOpen (e : Event) : bool :=
  match e with EvSqlOpen _ _ => true | _ => false end.

Definition is_Sleep (e : Event) : bool :=
  match e with EvSleep _ => true | _ => false end.

Definition is_RemoveAll (e : Event) : bool :=
  match e with EvRemoveAll _ _ => true | _ => false end.

(** The storage roots a trace has allocated and not removed again. *)
Definition removed (evs : list Event) (d : string) : bool :=
  existsb (fun e => match e with
                    | EvRemoveAll p _ => String.eqb p d
                    | _ => false
                    end) evs.

Fixpoint leftover_roots (evs : list Event) : list string :=
  match evs with
  | [] => []
  | EvTempDir _ (Ok d) :: evs' =>
      if removed evs' d then leftover_roots evs' else d :: leftover_roots evs'
  | _ :: evs' => leftover_roots evs'
  end.

(** The events of the readiness loop: connection attempts, and sleeps of
    the given length. *)
Definition readiness_event (d : Duration) (e : Event) : bool :=
  match e with
  | EvSqlOpen _ _ | EvPing _ _ => true
  | EvSleep d' => (d' =? d)%Z
  | _ => false
  end.


(** Does the lookup of the service account, with the parsing of its
    identifiers, succeed? *)
Definition account_resolves (env : Env) (h : Trace) : bool :=
  match env_Lookup env h "mysql" with
  | Ok u =>
      match env_ParseInt env (Uid u), env_ParseInt env (Gid u) with
      | Ok _, Ok _ => true
      | _, _ => false
      end
  | Err _ => false
  end.

(** Two instance records that differ in the connection handle at most. *)
Definition same_server (p q : MySQL) : Prop :=
  dir p = dir q /\ cmd p = cmd q /\ stderr p = stderr q
  /\ stdout p = stdout q /\ isRoot p = isRoot q
  /\ binPath p = binPath q /\ sockFile p = sockFile q.

(** An identity switch to the service account: [su - mysql -c <line>]. *)
Definition via_su (c : Cmd) : Prop :=
  exists line, Args c = ["su"; "-"; "mysql"; "-c"; line].

(** The shutdown command of [Stop]. *)
Definition shutdown_command (env : Env) (p : MySQL) : Cmd :=
  prepareCommand (isRoot p) (path_Join env (binPath p) "mysqladmin")
    ["-u"; "root"; "-S"; sockFile p; "shutdown"].

(** The bootstrap command of each vendor. *)
Definition bootstrap_command (env : Env) (isRoot isMariaDB : bool)
    (binPath dataDir : string) : Cmd :=
  if isMariaDB then
    prepareCommand isRoot (path_Join env binPath "mysql_install_db")
      ["--datadir=" +:+ dataDir]
  else
    prepareCommand isRoot (path_Join env binPath "mysqld_safe")
      ["--initialize-insecure"; "--datadir=" +:+ dataDir].

(** [Attempts fn d k s h evs r]: starting in captured state [s] after history
    [h], [k] attempts of [fn] were made, each but the last one failed and
    was followed by a sleep of [d]; [evs] are the events of the whole run and
    [r] is what the last attempt returned. *)
Inductive Attempts {St : Type} (fn : St -> M (option error * St))
    (d : Duration)
    : nat -> St -> Trace -> list Event -> option error * St -> Prop :=
| Attempts_last s h r e :
    fn s h = (Ret r, e) ->
    Attempts fn d 1 s h e r
| Attempts_again k s h err s' e e' r :
    fn s h = (Ret (Some err, s'), e) ->
    Attempts fn d k s' (h ++ e ++ [EvSleep d]) e' r ->
    Attempts fn d (S k) s h (e ++ EvSleep d :: e') r.

(** [s] occurs inside [msg]. *)
Definition contains (msg s : string) : Prop :=
  exists pre post, msg = pre +:+ s +:+ post.

(** ** Environments to run the package in *)

Definition slash (a b : string) : string := a +:+ "/" +:+ b.

Definition is_Ping (e : Event) : bool :=
  match e with EvPing _ _ => true | _ => false end.

Definition count_pings (h : Trace) : nat := count is_Ping h.

(** Has a [mysqladmin ... shutdown] already succeeded? *)
Definition is_shutdown (c : Cmd) : bool :=
  strings_Contains (strings_Join (Args c) " ") "mysqladmin".

Definition server_is_down (h : Trace) : bool :=
  existsb (fun x => match x with
                    | (c, _, None) => is_shutdown c
                    | _ => false
                    end) (commands h).

Record Scenario : Type := mkScenario {
  sc_user : string;               (* who runs the tests *)
  sc_account : bool;              (* is there a "mysql" account *)
  sc_installed : bool;            (* is mysqld_safe on the search path *)
  sc_mkdir : option error;        (* what MkdirAll answers *)
  sc_version : string;            (* output of mysql --version *)
  sc_init : string * option error;(* outcome of the bootstrap command *)
  sc_spawn : result Pid;          (* outcome of cmd.Start *)
  sc_ready_after : option nat;    (* failed pings before the server answers *)
}.

Definition world (sc : Scenario) : Env := {|
  env_Current := fun _ => Ok (mkUser (sc_user sc) "0" "0");
  env_Lookup := fun _ _ =>
    if sc_account sc then Ok (mkUser "mysql" "27" "27")
    else Err "user: unknown user mysql";
  env_ParseInt := fun s =>
    if String.eqb s "27" then Ok 27%Z
    else Err "strconv.ParseInt: invalid syntax";
  env_Join := slash;
  env_Dir := fun _ => "/usr/bin";
  env_TempDir := fun _ pattern => Ok ("/tmp/" +:+ pattern +:+ "810067242");
  env_MkdirAll := fun _ _ _ => sc_mkdir sc;
  env_Chmod := fun _ _ _ => None;
  env_Chown := fun _ _ _ _ => None;
  env_WriteFile := fun _ _ _ _ => None;
  env_LookPath := fun _ file =>
    if sc_installed sc then Ok ("/usr/bin/" +:+ file)
    else Err ("exec: " +:+ file +:+ ": executable file not found in $PATH");
  env_CombinedOutput := fun h c =>
    if is_shutdown c then
      if server_is_down h
      then ("mysqladmin: connect to server at 'localhost' failed",
            Some "exit status 1")
      else (EmptyString, None)
    else if strings_Contains (strings_Join (Args c) " ") "--version"
    then (sc_version sc, None)
    else sc_init sc;
  env_StderrPipe := fun _ _ => Ok 7%Z;
  env_StdoutPipe := fun _ _ => Ok 8%Z;
  env_CmdStart := fun _ _ => sc_spawn sc;
  env_Signal := fun _ _ _ => None;
  env_Wait := fun _ _ => None;
  env_ReadAll := fun _ p =>
    if (p =? 7)%Z then "mysqld: starting" else EmptyString;
  env_SqlOpen := fun _ _ => Ok 1%Z;
  env_Ping := fun h _ =>
    match sc_ready_after sc with
    | Some k => if Nat.leb k (count_pings h) then None
                else Some "dial unix: connection refused"
    | None => Some "dial unix: connection refused"
    end;
  env_RemoveAll := fun _ _ => None;
|}.

Definition mysql_version : string :=
  "mysql  Ver 8.0.36 for Linux on x86_64 (MySQL Community Server - GPL)".
Definition mariadb_version : string :=
  "mysql  Ver 15.1 Distrib 10.5.22-MariaDB, for Linux (x86_64)".

Definition healthy : Scenario :=
  mkScenario "tester" true true None mysql_version (EmptyString, None)
    (Ok 4242%Z) (Some 3).

Definition healthy_root : Scenario :=
  mkScenario "root" true true None mariadb_version (EmptyString, None)
    (Ok 4242%Z) (Some 0).

Definition not_installed : Scenario :=
  mkScenario "tester" false false None EmptyString (EmptyString, None)
    (Ok 4242%Z) None.

Definition corrupt_datadir : Scenario :=
  mkScenario "tester" true true None mariadb_version
    ("Installing MariaDB/MySQL system tables ... ERROR: 1005",
     Some "exit status 1")
    (Ok 4242%Z) (Some 0).

Definition spawn_fails : Scenario :=
  mkScenario "tester" true true None mariadb_version (EmptyString, None)
    (Err "fork/exec /usr/bin/mysqld_safe: exec format error") (Some 0).

Definition never_ready : Scenario :=
  mkScenario "tester" true true None mysql_version (EmptyString, None)
    (Ok 4242%Z) None.


(** An attempt function that fails the first time it is called and succeeds
    from then on; its captured state counts the calls. *)
Definition flaky (calls : nat) : M (option error * nat) :=
  fun _ =>
    (Ret (if Nat.eqb calls 0 then Some "connection refused" else None,
          S calls),
     [EvPing 1%Z (if Nat.eqb calls 0 then Some "connection refused" else None)]).

(** An attempt function that always fails. *)
Definition hopeless (calls : nat) : M (option error * nat) :=
  fun _ => (Ret (Some "connection refused", S calls),
            [EvPing 1%Z (Some "connection refused")]).

(** The runs the statements below refer to. *)
Definition not_installed_run : Outcome StartResult * list Event :=
  Eval vm_compute in Start (world not_installed) [].

Definition healthy_run : Outcome StartResult * list Event :=
  Eval vm_compute in Start (world healthy) [].

Definition the_instance : option MySQL :=
  match fst healthy_run with
  | Ret (p, _) => p
  | Panic _ => None
  end.

Definition first_stop : Outcome (option error) * list Event :=
  Eval vm_compute in Stop (world healthy) the_instance (snd healthy_run).

Definition install_db : Cmd :=
  exec_Command "/usr/bin/mysql_install_db"
    ["--datadir=/tmp/mysqltest810067242/data"].

Definition mysqld_safe : Cmd :=
  exec_Command "/usr/bin/mysqld_safe"
    ["--defaults-file=/tmp/mysqltest810067242/my.cnf"].

Definition mysqladmin : Cmd :=
  exec_Command "/usr/bin/mysqladmin"
    ["-u"; "root"; "-S"; "/tmp/mysqltest810067242/sock/mysql.sock";
     "shutdown"].

(** The last [n] events of a trace. *)
Definition last_events (n : nat) (evs : list Event) : list Event :=
  skipn (length evs - n) evs.

(** ** Further readings of a trace *)

Definition is_TempDir (e : Event) : bool :=
  match e with EvTempDir _ _ => true | _ => false end.

Definition is_Chmod (e : Event) : bool :=
  match e with EvChmod _ _ _ => true | _ => false end.

Definition is_Chown (e : Event) : bool :=
  match e with EvChown _ _ _ _ => true | _ => false end.

Definition is_Signal (e : Event) : bool :=
  match e with EvSignal _ _ _ => true | _ => false end.

Definition is_Wait (e : Event) : bool :=
  match e with EvWait _ _ => true | _ => false end.

(** The pipes closed, in order. *)
Fixpoint closes (evs : list Event) : list Pipe :=
  match evs with
  | [] => []
  | EvClose p :: evs' => p :: closes evs'
  | _ :: evs' => closes evs'
  end.

(** The data source names handed to [sql.Open], in order. *)
Fixpoint opens (evs : list Event) : list string :=
  match evs with
  | [] => []
  | EvSqlOpen dsn _ :: evs' => dsn :: opens evs'
  | _ :: evs' => opens evs'
  end.

(** The files written: path, content, mode and the answer. *)
Fixpoint writes (evs : list Event)
    : list (string * string * Z * option error) :=
  match evs with
  | [] => []
  | EvWriteFile path content perm r :: evs' =>
      (path, content, perm, r) :: writes evs'
  | _ :: evs' => writes evs'
  end.

(** The time slept, in nanoseconds. *)
Fixpoint total_sleep (evs : list Event) : Z :=
  match evs with
  | [] => 0
  | EvSleep d :: evs' => d + total_sleep evs'
  | _ :: evs' => total_sleep evs'
  end.

(** The pipes an instance holds, [stderr] first. *)
Definition pipes_of (p : MySQL) : list Pipe :=
  match stderr p with Some s => [s] | None => [] end
  ++ match stdout p with Some s => [s] | None => [] end.

Definition not_installed_msg : string :=
  "Did not find MySQL / MariaDB executables installed".

(** A healthy machine, except that the config file cannot be written. *)
Definition disk_full : Env :=
  let w := world healthy in {|
    env_Current := env_Current w;
    env_Lookup := env_Lookup w;
    env_ParseInt := env_ParseInt w;
    env_Join := env_Join w;
    env_Dir := env_Dir w;
    env_TempDir := env_TempDir w;
    env_MkdirAll := env_MkdirAll w;
    env_Chmod := env_Chmod w;
    env_Chown := env_Chown w;
    env_WriteFile := fun _ path _ _ =>
      Some ("open " +:+ path +:+ ": no space left on device");
    env_LookPath := env_LookPath w;
    env_CombinedOutput := env_CombinedOutput w;
    env_StderrPipe := env_StderrPipe w;
    env_StdoutPipe := env_StdoutPipe w;
    env_CmdStart := env_CmdStart w;
    env_Signal := env_Signal w;
    env_Wait := env_Wait w;
    env_ReadAll := env_ReadAll w;
    env_SqlOpen := env_SqlOpen w;
    env_Ping := env_Ping w;
    env_RemoveAll := env_RemoveAll w;
  |}.

Definition healthy_root_run : Outcome StartResult * list Event :=
  Eval vm_compute in Start (world healthy_root) [].

Definition root_instance : MySQL :=
  Eval vm_compute in
    match fst healthy_root_run with
    | Ret (Some p, _) => p
    | _ => mkMySQL EmptyString None None None None false EmptyString
             EmptyString
    end.

Definition su_mysqld_safe : Cmd :=
  exec_Command "su"
    ["-"; "mysql"; "-c";
     "/usr/bin/mysqld_safe --defaults-file=/tmp/mysqltest810067242/my.cnf"].

Definition never_ready_run : Outcome StartResult * list Event :=
  Eval vm_compute in Start (world never_ready) [].

Definition never_ready_msg : string :=
  "Failed to connect to test DB: dial unix: connection refused"
  +:+ newline +:+ "OUT: " +:+ newline +:+ "ERR: mysqld: starting".

(** ** The PostgreSQL sibling, [pgtest]

    Its [Stop] has no nil guard and shuts the server down with a signal. *)
Module PGTest.

Record PG : Type := mkPG {
  dir : string;
  cmd : option Cmd;
  DB : option DBHandle;
}.

Definition Stop (env : Env) (p : option PG) : M (option error) :=
  defer
    (match p with
     | None => panic nil_dereference
     | Some q => os_RemoveAll env (dir q)
     end)
    (func (
       _ <~ check (match p with
                   | None => panic nil_dereference
                   | Some q =>
                       match cmd q with
                       | None => panic nil_dereference
                       | Some c => Process_Signal env (Process c) Interrupt
                       end
                   end) Some ;
       _ <~ check (match p with
                   | None => panic nil_dereference
                   | Some q =>
                       match cmd q with
                       | None => panic nil_dereference
                       | Some c => cmd_Wait env c
                       end
                   end) Some ;
       pure None)).

End PGTest.

(** * Properties *)

(** ** [prepareCommand] *)

Lemma quote_loop_from (pre suf : list string) :
  foldl quote_step (pre ++ suf) (seq (length pre) (length suf))
  = pre ++ map quoted suf.
Proof.
  revert pre. induction suf as [|a suf IH]; intros pre; [reflexivity|].
  cbn [length seq foldl map].
  assert (Hstep : quote_step (pre ++ a :: suf) (length pre)
                  = (pre ++ [quoted a]) ++ suf).
  { unfold quote_step, quoted.
    rewrite list_lookup_middle by reflexivity.
    destruct (String.eqb a EmptyString).
    - rewrite insert_app_r_alt by lia.
      rewrite Nat.sub_diag. cbn. now rewrite <- app_assoc.
    - now rewrite <- app_assoc. }
  rewrite Hstep.
  replace (S (length pre)) with (length (pre ++ [quoted a]))
    by (rewrite length_app; cbn; lia).
  rewrite IH. now rewrite <- app_assoc.
Qed.

Lemma quote_empty_args_map (args : list string) :
  quote_empty_args args = map quoted args.
Proof. exact (quote_loop_from [] args). Qed.

Lemma quoted_nonempty (a : string) : quoted a <> EmptyString.
Proof.
  unfold quoted. destruct (String.eqb a EmptyString) eqn:E; [discriminate|].
  now apply String.eqb_neq in E.
Qed.

(** ** [retry] *)

Lemma wrap_int_range (z : Z) : (minInt <= wrap_int z <= maxInt)%Z.
Proof.
  unfold wrap_int, minInt, maxInt, intSize.
  pose proof (Z.mod_pos_bound (z - - 2 ^ (64 - 1)) (2 ^ 64) ltac:(lia)).
  change (2 ^ 64)%Z with (2 * 2 ^ (64 - 1))%Z in *. lia.
Qed.

Lemma wrap_int_id (z : Z) : (minInt <= z <= maxInt)%Z -> wrap_int z = z.
Proof.
  unfold wrap_int, minInt, maxInt, intSize. intros H.
  rewrite Z.mod_small; [lia|].
  change (2 ^ 64)%Z with (2 * 2 ^ (64 - 1))%Z. lia.
Qed.

(** One turn of the loop. *)
Lemma retry_step {St : Type} (fn : St -> M (option error * St))
    (attempts : Z) (interval : Duration) (s : St) (h : Trace) :
  retry fn attempts interval s h =
  match fn s h with
  | (Panic msg, e1) => (Panic msg, e1)
  | (Ret (None, s'), e1) => (Ret (None, s'), e1)
  | (Ret (Some err, s'), e1) =>
      if (wrap_int (attempts - 1) <=? 0)%Z then (Ret (Some err, s'), e1)
      else sleep_then e1 interval
             (retry fn (wrap_int (attempts - 1)) interval s'
                (h ++ e1 ++ [EvSleep interval]))
  end.
Proof.
  simp retry.
  destruct (fn s h) as [[[[err|] s']|msg] e1]; cbn; try reflexivity.
  destruct (Z_le_gt_dec (wrap_int (attempts - 1)) 0) as [Hle|Hgt]; cbn.
  - apply Z.leb_le in Hle. now rewrite Hle.
  - apply Z.gt_lt, Z.leb_gt in Hgt. now rewrite Hgt.
Qed.

Lemma wrap_int_pred (n : Z) :
  (minInt < n <= maxInt)%Z -> wrap_int (n - 1) = (n - 1)%Z.
Proof. intros H. apply wrap_int_id. lia. Qed.

Lemma wrap_int_pred_min : wrap_int (minInt - 1) = maxInt.
Proof. reflexivity. Qed.

Lemma minInt_neg : (minInt < 0)%Z.
Proof. reflexivity. Qed.

(** With a budget of [k >= 1] the loop makes between one and [k] attempts. *)
Lemma retry_attempts {St : Type} (fn : St -> M (option error * St))
    (d : Duration) (m : nat) :
  forall (s : St) (h : Trace) r evs,
    (Z.of_nat (S m) <= maxInt)%Z ->
    retry fn (Z.of_nat (S m)) d s h = (Ret r, evs) ->
    exists j, 1 <= j <= S m /\ Attempts fn d j s h evs r
              /\ (fst r = None \/ j = S m).
Proof.
  induction m as [|m IH]; intros s h r evs Hmax Hrun;
    rewrite retry_step in Hrun;
    destruct (fn s h) as [[[[err|] s']|msg] e1] eqn:Hfn;
    try discriminate.
  - (* budget 1, the attempt failed *)
    cbn in Hrun. injection Hrun as <- <-.
    exists 1. split; [lia|]. split; [now constructor | now right].
  - injection Hrun as <- <-.
    exists 1. split; [lia|]. split; [now constructor | now left].
  - (* budget m + 2, the attempt failed *)
    pose proof minInt_neg.
    rewrite wrap_int_pred in Hrun by lia.
    replace (Z.of_nat (S (S m)) - 1)%Z with (Z.of_nat (S m)) in Hrun by lia.
    destruct (Z.of_nat (S m) <=? 0)%Z eqn:Hle; [apply Z.leb_le in Hle; lia|].
    destruct (retry fn (Z.of_nat (S m)) d s' (h ++ e1 ++ [EvSleep d]))
      as [o e2] eqn:Hrec.
    unfold sleep_then in Hrun. cbn in Hrun. injection Hrun as -> <-.
    destruct (IH _ _ _ _ ltac:(lia) Hrec) as (j & Hj & Hatt & Hlast).
    exists (S j). split; [lia|]. split.
    + econstructor; eassumption.
    + destruct Hlast as [Hnil | ->]; [now left | now right].
  - injection Hrun as <- <-.
    exists 1. split; [lia|]. split; [now constructor | now left].
Qed.

(** The loop ends for every budget, the wrapped-around ones included: an
    attempt function that never panics makes [retry] return. *)
Lemma retry_returns {St : Type} (fn : St -> M (option error * St))
    (d : Duration) :
  (forall s h, exists r e, fn s h = (Ret r, e)) ->
  forall (n : Z) (s : St) (h : Trace),
    exists r evs, retry fn n d s h = (Ret r, evs).
Proof.
  intros Hfn n.
  remember (Z.to_nat (wrap_int (n - 1))) as fuel eqn:Hfuel.
  revert n Hfuel.
  induction fuel as [fuel IH] using lt_wf_ind; intros n Hfuel s h.
  rewrite retry_step.
  destruct (Hfn s h) as ([[err|] s'] & e1 & ->); [|eauto].
  destruct (wrap_int (n - 1) <=? 0)%Z eqn:Hle; [eauto|].
  apply Z.leb_gt in Hle.
  pose proof (wrap_int_range (n - 1)) as Hr.
  destruct (IH (Z.to_nat (wrap_int (wrap_int (n - 1) - 1)))
              ltac:(rewrite wrap_int_pred by (pose proof minInt_neg; lia); lia)
              (wrap_int (n - 1)) eq_refl s' (h ++ e1 ++ [EvSleep d]))
    as (r & e2 & Hrec).
  rewrite Hrec. unfold sleep_then. cbn. eauto.
Qed.

(** Whatever the budget, the first attempt is made. *)
Lemma retry_first_attempt {St : Type} (fn : St -> M (option error * St))
    (n : Z) (d : Duration) (s : St) (h : Trace) :
  exists rest, snd (retry fn n d s h) = snd (fn s h) ++ rest.
Proof.
  rewrite retry_step.
  destruct (fn s h) as [[[[err|] s']|msg] e1]; cbn;
    try (exists []; now rewrite app_nil_r).
  destruct (wrap_int (n - 1) <=? 0)%Z; cbn;
    [exists []; now rewrite app_nil_r | eauto].
Qed.

(** A budget that is zero or negative, the least [int] apart, buys exactly
    one attempt. *)
Lemma retry_single (St : Type) (fn : St -> M (option error * St))
    (n : Z) (d : Duration) (s : St) (h : Trace) :
  (minInt < n <= 1)%Z -> retry fn n d s h = fn s h.
Proof.
  intros Hn. rewrite retry_step.
  pose proof (wrap_int_pred n ltac:(unfold maxInt, intSize; lia)) as ->.
  destruct (fn s h) as [[[[err|] s']|msg] e1]; try reflexivity.
  destruct (n - 1 <=? 0)%Z eqn:Hle; [reflexivity|].
  apply Z.leb_gt in Hle. lia.
Qed.

(** *** The readiness loop of [Start] *)

Lemma count_app (f : Event -> bool) (l1 l2 : list Event) :
  count f (l1 ++ l2) = count f l1 + count f l2.
Proof. induction l1 as [|e l1 IH]; cbn; [reflexivity|]. rewrite IH. lia. Qed.

Lemma commands_app (l1 l2 : list Event) :
  commands (l1 ++ l2) = commands l1 ++ commands l2.
Proof.
  induction l1 as [|[] l1 IH]; cbn; try assumption; [reflexivity|].
  now rewrite IH.
Qed.

Lemma spawns_app (l1 l2 : list Event) :
  spawns (l1 ++ l2) = spawns l1 ++ spawns l2.
Proof.
  induction l1 as [|[] l1 IH]; cbn; try assumption; [reflexivity|].
  now rewrite IH.
Qed.

Lemma readiness_quiet (d : Duration) (evs : list Event) :
  forallb (readiness_event d) evs = true ->
  commands evs = [] /\ spawns evs = [] /\ count is_RemoveAll evs = 0.
Proof.
  induction evs as [|[] evs IH]; cbn; try discriminate; auto;
    intros H; try apply andb_prop in H as [_ H]; auto.
Qed.

(** One attempt: open, then ping; it cannot panic. *)
Lemma connect_events (env : Env) (sockFile : string) (mysql : MySQL)
    (h : Trace) (d : Duration) :
  exists r es,
    connect env sockFile mysql h = (Ret r, es)
    /\ count is_SqlOpen es = 1 /\ count is_Sleep es = 0
    /\ forallb (readiness_event d) es = true
    /\ same_server (snd r) mysql.
Proof.
  unfold connect, func, try, check, bindE, bind, pure, return_, ret,
    sql_Open, db_Ping, call, same_server.
  cbn. destruct (env_SqlOpen env h _) as [db|e]; cbn; [|eauto 15].
  destruct (env_Ping env _ db); cbn; eauto 15.
Qed.

Lemma Attempts_pos {St : Type} (fn : St -> M (option error * St))
    (d : Duration) (j : nat) (s : St) (h : Trace) evs r :
  Attempts fn d j s h evs r -> 1 <= j.
Proof. destruct 1; lia. Qed.

Lemma attempts_connect (env : Env) (sockFile : string) (d : Duration)
    (j : nat) (s : MySQL) (h : Trace) evs r :
  Attempts (connect env sockFile) d j s h evs r ->
  count is_SqlOpen evs = j /\ count is_Sleep evs = j - 1
  /\ forallb (readiness_event d) evs = true
  /\ same_server (snd r) s.
Proof.
  induction 1 as [s h r e Hfn | k s h err s' e e' r Hfn Hrest IH].
  - destruct (connect_events env sockFile s h d)
      as (r' & es & Hc & Ho & Hs & Hq & Hsame).
    rewrite Hc in Hfn. injection Hfn as <- <-. auto.
  - destruct (connect_events env sockFile s h d)
      as (r' & es & Hc & Ho & Hs & Hq & Hsame).
    rewrite Hc in Hfn. injection Hfn as -> <-.
    destruct IH as (IHo & IHs & IHq & IHsame).
    pose proof (Attempts_pos _ _ _ _ _ _ _ Hrest).
    rewrite !count_app, forallb_app. cbn.
    rewrite Hq, IHq, Z.eqb_refl. cbn. repeat split; try lia;
      unfold same_server in *; cbn in *; intuition congruence.
Qed.

(** The loop as [Start] calls it, with a budget between 1 and [maxInt]. *)
Lemma retry_connect (env : Env) (sockFile : string) (m : nat)
    (d : Duration) (s : MySQL) (h : Trace) o evs :
  (Z.of_nat (S m) <= maxInt)%Z ->
  retry (connect env sockFile) (Z.of_nat (S m)) d s h = (o, evs) ->
  exists r, o = Ret r
    /\ 1 <= count is_SqlOpen evs <= S m
    /\ count is_Sleep evs = count is_SqlOpen evs - 1
    /\ forallb (readiness_event d) evs = true
    /\ same_server (snd r) s.
Proof.
  intros Hmax Hrun.
  destruct (retry_returns (connect env sockFile) d
              ltac:(intros s0 h0;
                    destruct (connect_events env sockFile s0 h0 d)
                      as (r & es & Hc & _); eauto)
              (Z.of_nat (S m)) s h) as (r & evs' & Hret).
  rewrite Hret in Hrun. injection Hrun as <- <-.
  exists r. split; [reflexivity|].
  destruct (retry_attempts _ _ _ _ _ _ _ Hmax Hret)
    as (j & Hj & Hatt & _).
  apply attempts_connect in Hatt as (Ho & Hs & Hq & Hsame).
  rewrite Ho, Hs. auto with lia.
Qed.

(** ** Running the package symbolically *)

Opaque retry.

Ltac unfold_go :=
  unfold Start, Stop, abort, findBinPath, defer, func, try, check,
    lift, bindE, pure, return_, fail, cmd_Start, cmd_Wait, Process_Signal,
    user_Current, user_Lookup, strconv_ParseInt, ioutil_TempDir, os_MkdirAll,
    os_Chmod, os_Chown, ioutil_WriteFile, exec_LookPath, cmd_CombinedOutput,
    cmd_StderrPipe, cmd_StdoutPipe, ioutil_ReadAll, Close, sql_Open, db_Ping,
    os_RemoveAll, bind, call, query, ret, panic in *.

Ltac simpl_go :=
  cbn -[prepareCommand String.append retry path_Join path_Dir
        shutdown_command bootstrap_command config makeDSN Z.mul
        account_resolves] in *.

Ltac no_answer_inside t :=
  lazymatch t with
  | context [env_CombinedOutput] => fail
  | context [match _ with _ => _ end] => fail
  | _ => idtac
  end.

Lemma Process_prepareCommand (r : bool) (command : string)
    (args : list string) :
  Process (prepareCommand r command args) = None.
Proof. now destruct r. Qed.

(** Case analysis on the next answer of the environment. *)
Ltac step_go :=
  match goal with
  | |- context [Process (prepareCommand ?r ?c ?a)] =>
      rewrite (Process_prepareCommand r c a)
  | |- context [env_CombinedOutput ?e ?h ?c] =>
      no_answer_inside h;
      destruct (env_CombinedOutput e h c) as [? ?] eqn:?
  | |- context [match ?x with _ => _ end] =>
      no_answer_inside x; destruct x eqn:?
  | |- context [if ?x then _ else _] =>
      no_answer_inside x; destruct x eqn:?
  end; simpl_go.

(** The answers that the program does not look at. *)
Ltac forget_answers :=
  repeat match goal with
  | |- context [env_WriteFile ?e ?h ?a ?b ?c] =>
      generalize (env_WriteFile e h a b c); intro
  | |- context [env_ReadAll ?e ?h ?a] =>
      generalize (env_ReadAll e h a); intro
  | |- context [env_Signal ?e ?h ?a ?b] =>
      generalize (env_Signal e h a b); intro
  | |- context [env_Wait ?e ?h ?a] =>
      generalize (env_Wait e h a); intro
  | |- context [env_RemoveAll ?e ?h ?a] =>
      generalize (env_RemoveAll e h a); intro
  end.

Ltac run_go := unfold_go; simpl_go; repeat step_go; forget_answers.

Lemma snoc_cons {A} (a x : A) (l pre : list A) :
  l = pre ++ [x] -> a :: l = (a :: pre) ++ [x].
Proof. now intros ->. Qed.

(** Exhibit the last element of an explicit list. *)
Ltac split_last :=
  repeat first [ exact (eq_refl : [_] = [] ++ [_]) | apply snoc_cons ].

Lemma thousand : 1000%Z = Z.of_nat (S 999).
Proof. reflexivity. Qed.

(** Bring in what is known about the readiness loop of a run. *)
Ltac use_retry :=
  match goal with
  | H : retry _ _ _ _ _ = _ |- _ =>
      rewrite thousand in H;
      apply retry_connect in H as (? & ? & ? & ? & ? & Hsame);
      [|vm_compute; discriminate]
  | _ => idtac
  end.


(** ** [Stop] *)

(** C4: on a non-nil instance [Stop] ends, on every path (shutdown failed,
    wait failed, nil command, success), with the one attempt to remove the
    storage root [dir p]; what [Stop] returns is decided by the shutdown
    command and by the wait alone, whatever the removal answered. *)
Theorem Stop_always_removes_storage (env : Env) (p : MySQL) (h : Trace) :
  exists pre rm,
    snd (Stop env (Some p) h) = pre ++ [EvRemoveAll (dir p) rm]
    /\ count is_RemoveAll pre = 0
    /\ fst (Stop env (Some p) h) =
       match env_CombinedOutput env h (shutdown_command env p) with
       | (out, Some err) =>
           Ret (Some ("Failed to shutdown DB: " +:+ err +:+ " -> " +:+ out))
       | (out, None) =>
           match cmd p with
           | None => Panic nil_dereference
           | Some c =>
               match Process c with
               | None => Ret (Some "exec: not started")
               | Some pid =>
                   match env_Wait env
                           (h ++ [EvCombinedOutput (shutdown_command env p)
                                    out None]) pid with
                   | Some err => Ret (Some err)
                   | None => Ret None
                   end
               end
           end
       end.
Proof.
  unfold shutdown_command. unfold_go. simpl_go.
  repeat (step_go; rewrite ?app_nil_r).
  all: eexists; eexists; (split; [split_last|]); split; reflexivity.
Qed.

(** C2, as the code has it: on a nil instance [Stop] does nothing and
    returns nil.  A non-nil instance keeps no record of an earlier [Stop]:
    every call on it, whatever happened before, runs the shutdown command
    first and the removal of the storage root last, and returns the
    "Failed to shutdown DB" error when that command fails. *)
Theorem Stop_nil_is_the_only_noop (env : Env) :
  (forall h, Stop env None h = (Ret None, []))
  /\ (forall p h,
        exists out r rest rm,
          env_CombinedOutput env h (shutdown_command env p) = (out, r)
          /\ snd (Stop env (Some p) h)
             = EvCombinedOutput (shutdown_command env p) out r
               :: rest ++ [EvRemoveAll (dir p) rm]
          /\ match r with
             | Some err =>
                 fst (Stop env (Some p) h)
                 = Ret (Some ("Failed to shutdown DB: " +:+ err +:+ " -> "
                              +:+ out))
             | None => True
             end).
Proof.
  split; [reflexivity|]. intros p h.
  unfold shutdown_command. unfold_go. simpl_go.
  repeat step_go.
  all: do 4 eexists; split; [reflexivity|]; split;
    [apply f_equal; split_last | reflexivity || exact I].
Qed.

(** ** [Start] *)

Ltac finish_run Hrun :=
  try discriminate Hrun; use_retry; try discriminate Hrun;
  try match goal with H : Panic _ = Ret _ |- _ => discriminate H end;
  try match goal with H : Ret _ = Panic _ |- _ => discriminate H end.

(** C1, as the code has it: when [Start] returns an error it returns no
    instance, and a server process it had spawned has been interrupted and
    waited for, its two pipes read and closed, as the last thing [Start]
    did.  [Start] itself never removes anything from the file system. *)
Theorem Start_failure_cleanup (env : Env) (h : Trace) p err evs :
  Start env h = (Ret (p, Some err), evs) ->
  p = None
  /\ count is_RemoveAll evs = 0
  /\ (forall c pid, In (c, Ok pid) (spawns evs) ->
      exists pre sr wr errp outp serr sout,
        evs = pre ++ [EvSignal pid Interrupt sr; EvWait pid wr;
                      EvReadAll errp serr; EvReadAll outp sout;
                      EvClose errp; EvClose outp]).
Proof.
  revert p err evs. run_go.
  all: intros p' err' evs' Hrun; finish_run Hrun.
  all: injection Hrun as <- <- <-.
  all: lazymatch goal with
       | H : forallb _ _ = true |- _ =>
           apply readiness_quiet in H as (Hc & Hs & Hr);
           rewrite ?app_nil_r;
           split; [reflexivity|]; split;
           [ cbn; rewrite count_app, Hr; reflexivity
           | cbn; rewrite spawns_app, Hs; cbn;
             intros c pid [[= <- <-]|[]];
             do 7 eexists; rewrite !app_comm_cons; reflexivity ]
       | _ =>
           split; [reflexivity|]; split; [reflexivity|];
           cbn; intros ? ? []
       end.
Qed.

Lemma append_assoc (a b c : string) : (a +:+ b) +:+ c = a +:+ b +:+ c.
Proof.
  induction a as [|x a IH]; [reflexivity|].
  change (String x ((a +:+ b) +:+ c) = String x (a +:+ b +:+ c)).
  now rewrite IH.
Qed.

Lemma append_nil_r (a : string) : a +:+ EmptyString = a.
Proof.
  induction a as [|x a IH]; [reflexivity|].
  change (String x (a +:+ EmptyString) = String x a). now rewrite IH.
Qed.

Lemma contains_end (a s : string) : contains (a +:+ s) s.
Proof. exists a, EmptyString. now rewrite append_nil_r. Qed.

Lemma contains_later (a m s : string) : contains m s -> contains (a +:+ m) s.
Proof.
  intros (pre & post & ->). exists (a +:+ pre), post.
  now rewrite append_assoc.
Qed.

(** Set up a statement about [Start env h] for symbolic execution. *)
Ltac start_run r evs Hrun :=
  match goal with
  | |- context [Start ?env ?h] =>
      destruct (Start env h) as [r evs] eqn:Hrun; cbn [fst snd] in *
  end.

(** C5: when the second command of [Start], the bootstrap command, exits
    with an error, [Start] returns an error whose text contains the output
    of that command; the bootstrap was run once (two commands in all, the
    version probe and the bootstrap) and no process was started. *)
Theorem Start_bootstrap_failure (env : Env) (h : Trace) c out e :
  nth_error (commands (snd (Start env h))) 1 = Some (c, out, Some e) ->
  (exists isRoot isMariaDB binPath dataDir,
     c = bootstrap_command env isRoot isMariaDB binPath dataDir)
  /\ (exists msg, fst (Start env h) = Ret (None, Some msg)
                  /\ contains msg out)
  /\ length (commands (snd (Start env h))) = 2
  /\ spawns (snd (Start env h)) = [].
Proof.
  start_run r evs Hrun. revert r evs Hrun c out e.
  run_go.
  all: intros r evs Hrun c out e' Hnth; finish_run Hrun.
  all: injection Hrun as <- <-; cbn in Hnth; try discriminate Hnth.
  all: injection Hnth as <- <- <-.
  all: split; [|split; [|split; reflexivity]].
  all: try (eexists; split; [reflexivity|];
            do 2 apply contains_later; apply contains_end).
  all: first [ exists true, true; do 2 eexists; reflexivity
             | exists true, false; do 2 eexists; reflexivity
             | exists false, true; do 2 eexists; reflexivity
             | exists false, false; do 2 eexists; reflexivity ].
Qed.





(** The readiness loop gave up: [abort] interrupts the process, waits for
    it, and reports the error with both output streams. *)
Lemma Start_readiness_failure_report (env : Env) (h : Trace) c pid err evs :
  Start env h = (Ret (None, Some err), evs) ->
  In (c, Ok pid) (spawns evs) ->
  exists pre e sr wr errp outp serr sout,
    evs = pre ++ [EvSignal pid Interrupt sr; EvWait pid wr;
                  EvReadAll errp serr; EvReadAll outp sout;
                  EvClose errp; EvClose outp]
    /\ err = "Failed to connect to test DB: " +:+ e +:+ newline +:+ "OUT: "
             +:+ sout +:+ newline +:+ "ERR: " +:+ serr.
Proof.
  revert c pid err evs. run_go.
  all: intros c pid err' evs' Hrun; finish_run Hrun.
  all: injection Hrun as <- <-.
  all: try (cbn; intros []; fail).
  all: match goal with
       | H : forallb _ _ = true |- _ =>
           apply readiness_quiet in H as (Hc & Hs & Hr)
       end.
  all: rewrite ?app_nil_r; cbn; rewrite spawns_app, Hs; cbn.
  all: intros [[= <- <-]|[]].
  all: do 8 eexists; split; [rewrite !app_comm_cons; reflexivity|].
  all: reflexivity.
Qed.

(** C6, where the code differs: when [cmd.Start()] fails, [abort] calls
    [Signal] on the nil [cmd.Process]; [Start] panics and returns no error,
    and the failed start is the last thing it did (nothing is read from
    the pipes, nothing is closed). *)
Theorem Start_spawn_failure_panics (env : Env) (h : Trace) c e :
  In (c, Err e) (spawns (snd (Start env h))) ->
  fst (Start env h) = Panic nil_dereference
  /\ exists pre, snd (Start env h) = pre ++ [EvCmdStart c (Err e)].
Proof.
  start_run r evs Hrun. revert r evs Hrun c e.
  run_go.
  all: intros r evs Hrun c e' Hin; finish_run Hrun.
  all: injection Hrun as <- <-.
  all: try (cbn in Hin; destruct Hin; fail).
  all: try match goal with
           | H : forallb _ _ = true |- _ =>
               apply readiness_quiet in H as (Hc & Hs & Hr)
           end.
  all: rewrite ?app_nil_r in *; cbn in Hin;
    rewrite ?spawns_app in Hin; try rewrite Hs in Hin; cbn in Hin.
  all: destruct Hin as [Hin|[]]; try discriminate Hin.
  all: injection Hin as <- <-.
  all: split; [reflexivity|]; eexists; split_last.
Qed.


(** ** The claims about [prepareCommand] and [retry] *)

(** C9: without privilege dropping [prepareCommand] is the direct
    invocation with the arguments as given; with it, the command is
    [su - mysql -c line], where [line] joins, with single spaces, the
    executable and the arguments, every empty argument replaced by the two
    quote characters and every other argument unchanged, so that no joined
    token is empty. *)
Theorem prepareCommand_spec (command : string) (args : list string) :
  prepareCommand false command args = exec_Command command args
  /\ Args (prepareCommand false command args) = command :: args
  /\ Args (prepareCommand true command args)
     = ["su"; "-"; "mysql"; "-c";
        strings_Join (command :: quote_empty_args args) " "]
  /\ length (quote_empty_args args) = length args
  /\ (forall i a, args !! i = Some a ->
        quote_empty_args args !! i = Some (quoted a))
  /\ Forall (fun a => a <> EmptyString) (quote_empty_args args).
Proof.
  rewrite quote_empty_args_map.
  split; [reflexivity|]. split; [reflexivity|]. split.
  { unfold prepareCommand. cbn. now rewrite quote_empty_args_map. }
  split; [apply length_map|]. split.
  - intros i a Hi. change (map quoted args) with (quoted <$> args).
    rewrite list_lookup_fmap, Hi. reflexivity.
  - apply List.Forall_forall. intros a Ha.
    apply List.in_map_iff in Ha as (b & <- & _).
    apply quoted_nonempty.
Qed.


(** C10, as the code has it: [retry] always makes a first attempt; with a
    budget that is zero or negative, but not the least [int], that one
    attempt is all it does: its events and its result are those of the
    attempt. *)
Theorem retry_nonpositive_budget {St : Type}
    (fn : St -> M (option error * St)) (n : Z) (d : Duration) (s : St)
    (h : Trace) :
  (minInt < n <= 0)%Z ->
  retry fn n d s h = fn s h
  /\ forall n', exists rest, snd (retry fn n' d s h) = snd (fn s h) ++ rest.
Proof.
  intros Hn. split.
  - apply retry_single. lia.
  - intros n'. apply retry_first_attempt.
Qed.

(** ** Runs in the environments above *)


(** Against C10.  With a budget of [minInt] the decrement wraps around to [maxInt]: a
    failed first attempt is followed by a sleep and a second attempt. *)
Lemma retry_minInt_goes_on :
  retry flaky minInt 5%Z 0 []
  = (Ret (None, 2),
     [EvPing 1%Z (Some "connection refused"); EvSleep 5%Z; EvPing 1%Z None])
  /\ retry flaky minInt 5%Z 0 [] <> flaky 0 [].
Proof.
  assert (H : retry flaky minInt 5%Z 0 []
              = (Ret (None, 2),
                 [EvPing 1%Z (Some "connection refused"); EvSleep 5%Z;
                  EvPing 1%Z None])).
  { rewrite retry_step. cbn [flaky Nat.eqb].
    rewrite wrap_int_pred_min.
    change (maxInt <=? 0)%Z with false. cbv iota.
    rewrite retry_step. reflexivity. }
  split; [exact H|]. rewrite H. discriminate.
Qed.

Lemma retry_nonpositive_budget_witness :
  retry hopeless 0%Z 5%Z 0 [] = hopeless 0 []
  /\ forall n', exists rest,
       snd (retry hopeless n' 5%Z 0 []) = snd (hopeless 0 []) ++ rest.
Proof.
  apply (retry_nonpositive_budget hopeless 0%Z 5%Z 0 []).
  vm_compute. split; [reflexivity | discriminate].
Defined.

(** Against C1.  A machine without MySQL: [Start] fails at [findBinPath], after it has
    made the storage root, its two subdirectories and the config file, and
    returns with all of them left on the disk. *)
Lemma Start_leaves_storage_root :
  Start (world not_installed) []
  = (Ret (None, Some "Did not find MySQL / MariaDB executables installed"),
     [EvTempDir "mysqltest" (Ok "/tmp/mysqltest810067242");
      EvMkdirAll "/tmp/mysqltest810067242/data" mode_0711 None;
      EvMkdirAll "/tmp/mysqltest810067242/sock" mode_0711 None;
      EvWriteFile "/tmp/mysqltest810067242/my.cnf"
        (config "/tmp/mysqltest810067242/data" "/tmp/mysqltest810067242/sock"
           "/tmp/mysqltest810067242") mode_0644 None])
  /\ leftover_roots (snd (Start (world not_installed) []))
     = ["/tmp/mysqltest810067242"].
Proof. split; vm_compute; reflexivity. Qed.

Lemma Start_failure_cleanup_witness :
  @None MySQL = None
  /\ count is_RemoveAll (snd not_installed_run) = 0
  /\ (forall c pid, In (c, Ok pid) (spawns (snd not_installed_run)) ->
      exists pre sr wr errp outp serr sout,
        snd not_installed_run
        = pre ++ [EvSignal pid Interrupt sr; EvWait pid wr;
                  EvReadAll errp serr; EvReadAll outp sout;
                  EvClose errp; EvClose outp]).
Proof.
  apply (Start_failure_cleanup (world not_installed) [] None
           "Did not find MySQL / MariaDB executables installed").
  vm_compute. reflexivity.
Defined.

(** A server that never answers: the whole budget is used, 1000 attempts
    and 999 sleeps, and the run ends with the steps of [abort]. *)
Lemma Start_never_ready_uses_the_budget :
  fst (Start (world never_ready) [])
  = Ret (None,
         Some ("Failed to connect to test DB: dial unix: connection refused"
               +:+ newline +:+ "OUT: " +:+ newline
               +:+ "ERR: mysqld: starting"))
  /\ count is_SqlOpen (snd (Start (world never_ready) [])) = 1000
  /\ count is_Sleep (snd (Start (world never_ready) [])) = 999
  /\ last_events 6 (snd (Start (world never_ready) []))
     = [EvSignal 4242%Z Interrupt None; EvWait 4242%Z None;
        EvReadAll 7%Z "mysqld: starting"; EvReadAll 8%Z EmptyString;
        EvClose 7%Z; EvClose 8%Z].
Proof. repeat split; vm_compute; reflexivity. Qed.

(** Against C2.  A healthy server, stopped once and then once more: the second [Stop]
    runs [mysqladmin shutdown] again, which fails against the server that
    is gone, removes the storage root again, and returns an error. *)
Lemma Stop_twice_runs_shutdown_again :
  the_instance <> None
  /\ Stop (world healthy) the_instance (snd healthy_run)
     = (Ret None,
        [EvCombinedOutput mysqladmin EmptyString None; EvWait 4242%Z None;
         EvClose 7%Z; EvClose 8%Z;
         EvRemoveAll "/tmp/mysqltest810067242" None])
  /\ Stop (world healthy) the_instance (snd healthy_run ++ snd first_stop)
     = (Ret (Some ("Failed to shutdown DB: exit status 1 -> "
                   +:+ "mysqladmin: connect to server at 'localhost' failed")),
        [EvCombinedOutput mysqladmin
           "mysqladmin: connect to server at 'localhost' failed"
           (Some "exit status 1");
         EvRemoveAll "/tmp/mysqltest810067242" None]).
Proof. repeat split; try discriminate; vm_compute; reflexivity. Qed.

Lemma Start_bootstrap_failure_witness :
  (exists isRoot isMariaDB binPath dataDir,
     install_db
     = bootstrap_command (world corrupt_datadir) isRoot isMariaDB binPath
         dataDir)
  /\ (exists msg,
        fst (Start (world corrupt_datadir) []) = Ret (None, Some msg)
        /\ contains msg
             "Installing MariaDB/MySQL system tables ... ERROR: 1005")
  /\ length (commands (snd (Start (world corrupt_datadir) []))) = 2
  /\ spawns (snd (Start (world corrupt_datadir) [])) = [].
Proof.
  apply (Start_bootstrap_failure (world corrupt_datadir) [] install_db
           "Installing MariaDB/MySQL system tables ... ERROR: 1005"
           "exit status 1").
  vm_compute. reflexivity.
Defined.

Lemma Start_spawn_failure_panics_witness :
  fst (Start (world spawn_fails) []) = Panic nil_dereference
  /\ exists pre,
       snd (Start (world spawn_fails) [])
       = pre ++ [EvCmdStart mysqld_safe
                   (Err "fork/exec /usr/bin/mysqld_safe: exec format error")].
Proof.
  apply (Start_spawn_failure_panics (world spawn_fails) [] mysqld_safe
           "fork/exec /usr/bin/mysqld_safe: exec format error").
  vm_compute. left. reflexivity.
Defined.


(** * Further properties *)

(** ** Reading traces *)

Lemma closes_app (l1 l2 : list Event) :
  closes (l1 ++ l2) = closes l1 ++ closes l2.
Proof.
  induction l1 as [|[] l1 IH]; cbn; try assumption; [reflexivity|].
  now rewrite IH.
Qed.

Lemma opens_app (l1 l2 : list Event) :
  opens (l1 ++ l2) = opens l1 ++ opens l2.
Proof.
  induction l1 as [|[] l1 IH]; cbn; try assumption; [reflexivity|].
  now rewrite IH.
Qed.

Lemma writes_app (l1 l2 : list Event) :
  writes (l1 ++ l2) = writes l1 ++ writes l2.
Proof.
  induction l1 as [|[] l1 IH]; cbn; try assumption; [reflexivity|].
  now rewrite IH.
Qed.

Lemma total_sleep_app (l1 l2 : list Event) :
  total_sleep (l1 ++ l2) = (total_sleep l1 + total_sleep l2)%Z.
Proof.
  induction l1 as [|[] l1 IH]; cbn [app total_sleep]; try assumption;
    [reflexivity|]. rewrite IH. lia.
Qed.

Lemma removed_app (l1 l2 : list Event) (d : string) :
  removed (l1 ++ l2) d = removed l1 d || removed l2 d.
Proof. unfold removed. apply existsb_app. Qed.

Lemma removed_none (l : list Event) (d : string) :
  count is_RemoveAll l = 0 -> removed l d = false.
Proof.
  induction l as [|[] l IH]; cbn; try discriminate; auto.
Qed.

Lemma leftover_none (l : list Event) :
  count is_TempDir l = 0 -> leftover_roots l = [].
Proof.
  induction l as [|[] l IH]; cbn; try discriminate; auto.
Qed.

(** What the events of the readiness loop are not. *)
Lemma readiness_silent (d : Duration) (l : list Event) :
  forallb (readiness_event d) l = true ->
  closes l = [] /\ writes l = [] /\ count is_TempDir l = 0
  /\ count is_Chmod l = 0 /\ count is_Chown l = 0
  /\ count is_Signal l = 0 /\ count is_Wait l = 0
  /\ total_sleep l = (Z.of_nat (count is_Sleep l) * d)%Z.
Proof.
  induction l as [|e l IH]; [cbn; auto 10|].
  cbn [forallb]. intros H. apply andb_prop in H as [He H].
  destruct (IH H) as (? & ? & ? & ? & ? & ? & ? & Ht).
  destruct e; try discriminate He; cbn [closes writes count total_sleep
    is_TempDir is_Chmod is_Chown is_Signal is_Wait is_Sleep];
    repeat split; try assumption.
  cbn in He. apply Z.eqb_eq in He. subst. rewrite Ht. lia.
Qed.

(** ** The readiness loop, once more *)


(** How one attempt ends. *)
Lemma connect_cases (env : Env) (sockFile : string) (mysql : MySQL)
    (h : Trace) r e :
  connect env sockFile mysql h = (Ret r, e) ->
  let dsn := makeDSN sockFile "test" in
  match fst r with
  | None =>
      exists db, e = [EvSqlOpen dsn (Ok db); EvPing db None]
                 /\ snd r = set_DB mysql db
  | Some err =>
      snd r = mysql
      /\ (e = [EvSqlOpen dsn (Err err)]
          \/ exists db, e = [EvSqlOpen dsn (Ok db); EvPing db (Some err)])
  end.
Proof.
  unfold connect, func, try, check, bindE, bind, pure, return_, ret,
    sql_Open, db_Ping, call.
  cbn. destruct (env_SqlOpen env h _) as [db|err]; cbn.
  - destruct (env_Ping env _ db) as [err|]; cbn; intros [= <- <-]; cbn;
      eauto.
  - intros [= <- <-]; cbn; auto.
Qed.

(** The last attempt of a run, and the data source name of all of them. *)
Lemma attempts_connect_last (env : Env) (sockFile : string) (d : Duration)
    (j : nat) (s : MySQL) (h : Trace) evs r :
  Attempts (connect env sockFile) d j s h evs r ->
  Forall (fun dsn => dsn = makeDSN sockFile "test") (opens evs)
  /\ exists s0 h0 pre e,
       connect env sockFile s0 h0 = (Ret r, e)
       /\ evs = pre ++ e /\ same_server s0 s.
Proof.
  induction 1 as [s h r e Hfn | k s h err s' e e' r Hfn Hrest IH].
  - split.
    + pose proof (connect_cases _ _ _ _ _ _ Hfn) as Hc. cbn in Hc.
      destruct (fst r) as [err|].
      * destruct Hc as (_ & [-> | (db & ->)]); cbn; auto.
      * destruct Hc as (db & -> & _); cbn; auto.
    + exists s, h, [], e. unfold same_server. auto 10.
  - destruct IH as (Hdsn & s0 & h0 & pre & e0 & Hlast & -> & Hsame).
    pose proof (connect_cases _ _ _ _ _ _ Hfn) as Hc. cbn in Hc.
    destruct Hc as (-> & He).
    split.
    + rewrite opens_app. apply Forall_app. split; [|exact Hdsn].
      destruct He as [-> | (db & ->)]; cbn; auto.
    + exists s0, h0, (e ++ EvSleep d :: pre), e0.
      split; [exact Hlast|]. split; [|exact Hsame].
      now rewrite <- app_assoc.
Qed.

(** All that later statements need about the loop of [Start]. *)
Lemma retry_connect_full (env : Env) (sockFile : string) (m : nat)
    (d : Duration) (s : MySQL) (h : Trace) o evs :
  (Z.of_nat (S m) <= maxInt)%Z ->
  retry (connect env sockFile) (Z.of_nat (S m)) d s h = (o, evs) ->
  exists r, o = Ret r
    /\ forallb (readiness_event d) evs = true
    /\ count is_Sleep evs <= m
    /\ Forall (fun dsn => dsn = makeDSN sockFile "test") (opens evs)
    /\ same_server (snd r) s
    /\ exists pre,
         match fst r with
         | None =>
             exists db,
               evs = pre ++ [EvSqlOpen (makeDSN sockFile "test") (Ok db);
                             EvPing db None]
               /\ DB (snd r) = Some db
         | Some err =>
             count is_SqlOpen evs = S m
             /\ count is_Sleep evs = m
             /\ (evs = pre ++ [EvSqlOpen (makeDSN sockFile "test") (Err err)]
                 \/ exists db,
                      evs = pre ++ [EvSqlOpen (makeDSN sockFile "test")
                                      (Ok db);
                                    EvPing db (Some err)])
         end.
Proof.
  intros Hmax Hrun.
  destruct (retry_connect _ _ _ _ _ _ _ _ Hmax Hrun)
    as (r & -> & Hcount & Hsleep & Hq & Hsame).
  exists r. split; [reflexivity|]. split; [exact Hq|].
  split; [lia|].
  destruct (retry_attempts _ _ _ _ _ _ _ Hmax Hrun)
    as (j & Hj & Hatt & Hlast).
  pose proof (attempts_connect _ _ _ _ _ _ _ _ Hatt) as (Hopen & _).
  destruct (attempts_connect_last _ _ _ _ _ _ _ _ Hatt)
    as (Hdsn & s0 & h0 & pre & e & Hc & -> & Hs0).
  split; [exact Hdsn|]. split; [exact Hsame|].
  exists pre.
  pose proof (connect_cases _ _ _ _ _ _ Hc) as Hcase. cbn in Hcase.
  destruct (fst r) as [err|].
  - destruct Hlast as [Hnil | ->]; [discriminate|].
    destruct Hcase as (_ & He). split; [exact Hopen|].
    split; [lia|].
    destruct He as [-> | (db & ->)]; eauto.
  - destruct Hcase as (db & -> & ->). exists db. split; reflexivity.
Qed.

(** ** [Start], further *)

Ltac use_retry_full :=
  match goal with
  | H : retry _ _ _ _ _ = _ |- _ =>
      rewrite thousand in H;
      apply retry_connect_full in H
        as (? & ? & Hq & Hsl & Hdsn & Hsame & Hlast);
      [|vm_compute; discriminate]
  | _ => idtac
  end.

Ltac finish_full Hrun :=
  try discriminate Hrun; use_retry_full; try discriminate Hrun;
  try match goal with H : Panic _ = Ret _ |- _ => discriminate H end;
  try match goal with H : Ret _ = Panic _ |- _ => discriminate H end;
  try match goal with H : Ret _ = Ret _ |- _ => injection H as -> end.

(** X1: on a machine where the executables cannot be located, [Start]
    returns an error without running or starting any command; once the
    storage has been provisioned the error is the fixed "Did not find
    MySQL / MariaDB executables installed", whatever [exec.LookPath]
    reported. *)
Theorem Start_without_binaries (env : Env) (h : Trace) :
  (forall h' file, exists e, env_LookPath env h' file = Err e) ->
  commands (snd (Start env h)) = []
  /\ spawns (snd (Start env h)) = []
  /\ exists err,
       fst (Start env h) = Ret (None, Some err)
       /\ (writes (snd (Start env h)) <> [] -> err = not_installed_msg).
Proof.
  intros Hnone.
  start_run r evs Hrun. revert r evs Hrun.
  run_go.
  all: intros r evs Hrun.
  all: try match goal with
           | H : env_LookPath ?e ?h0 ?f = Ok _ |- _ =>
               destruct (Hnone h0 f); congruence
           end.
  all: injection Hrun as <- <-.
  all: split; [reflexivity|]; split; [reflexivity|].
  all: eexists; split; [reflexivity|].
  all: cbn; intros Hw; try reflexivity; now destruct Hw.
Qed.

Ltac silence :=
  try match goal with
  | Hq : forallb (readiness_event _) ?l = true |- _ =>
      pose proof (readiness_quiet _ _ Hq) as (Hc & Hs & Hr);
      pose proof (readiness_silent _ _ Hq)
        as (Hcl & Hw & Htd & Hcm & Hco & Hsg & Hwt & Hts)
  end.

Ltac cbn_trace :=
  cbn -[prepareCommand bootstrap_command String.append In Z.mul Z.add
        path_Join path_Dir config makeDSN].

(** X2: [Start] writes at most one file, [my.cnf] under the storage root,
    with mode 0644 and the settings of that root; whatever the write
    answers, an error included, [Start] goes on: it either runs the version
    probe or fails because the executables are not installed. *)
Theorem Start_ignores_config_write_error (env : Env) (h : Trace) :
  match writes (snd (Start env h)) with
  | [] => commands (snd (Start env h)) = []
  | [(path, content, perm, r)] =>
      (exists root,
         In (EvTempDir "mysqltest" (Ok root)) (snd (Start env h))
         /\ path = path_Join env root "my.cnf"
         /\ content = config (path_Join env root "data")
                        (path_Join env root "sock") root)
      /\ perm = mode_0644
      /\ (commands (snd (Start env h)) <> []
          \/ fst (Start env h) = Ret (None, Some not_installed_msg))
  | _ => False
  end.
Proof.
  start_run r evs Hrun. revert r evs Hrun.
  run_go.
  all: intros r evs Hrun; finish_full Hrun.
  all: injection Hrun as <- <-.
  all: silence.
  all: rewrite ?app_nil_r; cbn_trace.
  all: rewrite ?writes_app, ?commands_app, ?Hw, ?Hc; cbn_trace.
  all: try reflexivity.
  all: split; [eexists; split; [left; reflexivity|]; split; reflexivity|].
  all: split; [reflexivity|].
  all: first [ right; reflexivity | left; discriminate ].
Qed.

Lemma prepareCommand_direct (command : string) (args : list string) :
  length args <> 4 -> ~ via_su (prepareCommand false command args).
Proof.
  intros Hlen [line H]. cbn in H. injection H as _ H.
  apply Hlen. now rewrite H.
Qed.

Lemma Stop_direct (env : Env) (p : MySQL) (h : Trace) :
  isRoot p = false ->
  Forall (fun c => ~ via_su c) (command_lines (snd (Stop env (Some p) h))).
Proof.
  intros Hroot. unfold_go. simpl_go. rewrite Hroot.
  repeat step_go.
  all: repeat constructor; apply prepareCommand_direct; cbn; lia.
Qed.

(** X3: when the current user is not named "root", [Start] changes no
    mode and no owner, no command line goes through [su], and the instance
    it returns makes [Stop] run [mysqladmin] directly as well. *)
Theorem Start_as_self_is_direct (env : Env) (h : Trace) (me : User) :
  env_Current env h = Ok me ->
  Username me <> "root" ->
  count is_Chmod (snd (Start env h)) = 0
  /\ count is_Chown (snd (Start env h)) = 0
  /\ Forall (fun c => ~ via_su c /\ Process c = None)
       (command_lines (snd (Start env h)))
  /\ (forall p, fst (Start env h) = Ret (Some p, None) ->
      isRoot p = false
      /\ forall h', Forall (fun c => ~ via_su c)
                      (command_lines (snd (Stop env (Some p) h')))).
Proof.
  intros Hcur Hroot.
  start_run r evs Hrun. revert r evs Hrun.
  run_go.
  all: intros r evs Hrun; finish_full Hrun.
  all: injection Hrun as <- <-.
  all: try congruence.
  all: try (apply String.eqb_eq in Heqb; congruence).
  all: silence.
  all: rewrite ?app_nil_r.
  all: unfold command_lines.
  all: cbn_trace.
  all: rewrite ?count_app, ?commands_app, ?spawns_app, ?Hcm, ?Hco, ?Hc, ?Hs.
  all: cbn_trace.
  all: split; [reflexivity|]; split; [reflexivity|]; split.
  all: try (repeat constructor; try apply prepareCommand_direct;
            try apply Process_prepareCommand; cbn; lia).
  all: intros p' Hp; try discriminate Hp.
  all: injection Hp as <-.
  all: assert (Hp : isRoot (snd x) = false) by apply Hsame.
  all: split; [exact Hp | intros h'; now apply Stop_direct].
Qed.

(** X11: when the current user is named "root" and [Start] gets as far as
    running a command, the mysql account was resolved and, before any
    command, the storage root was made traversable (mode 0711) and the data
    and socket directories were handed to that account's uid and gid. *)
Theorem Start_as_root_hands_over_storage (env : Env) (h : Trace) (me : User) :
  env_Current env h = Ok me ->
  Username me = "root" ->
  commands (snd (Start env h)) <> [] ->
  exists u uid gid root pre post,
    env_Lookup env h "mysql" = Ok u
    /\ env_ParseInt env (Uid u) = Ok uid
    /\ env_ParseInt env (Gid u) = Ok gid
    /\ snd (Start env h)
       = pre ++ [EvChmod root mode_0711 None;
                 EvChown (path_Join env root "data") uid gid None;
                 EvChown (path_Join env root "sock") uid gid None] ++ post
    /\ commands pre = [] /\ In (EvTempDir "mysqltest" (Ok root)) pre.
Proof.
  intros Hcur Hroot.
  start_run r evs Hrun. revert r evs Hrun.
  run_go.
  all: intros r evs Hrun; finish_full Hrun.
  all: injection Hrun as <- <-.
  all: try congruence.
  all: try (apply String.eqb_neq in Heqb; congruence).
  all: repeat match goal with
       | H : env_Lookup _ (_ ++ []) _ = _ |- _ => rewrite app_nil_r in H
       end.
  all: intros Hcmd; try (now destruct Hcmd).
  all: do 3 eexists.
  all: eexists;
    eexists [EvTempDir _ _; EvMkdirAll _ _ _; EvMkdirAll _ _ _];
    eexists.
  all: split; [eassumption|]; split; [eassumption|]; split; [eassumption|].
  all: split; [reflexivity|]; split; [reflexivity | left; reflexivity].
Qed.

(** X4: the instance of a successful [Start]: its [dir] is the temporary
    directory allocated, its [cmd] is the one command started, with the
    process id it got, its pipes are the two that were opened, and its [DB]
    is the handle whose ping, the last thing [Start] did, succeeded.
    Nothing was signalled, waited for, closed or removed. *)
Theorem Start_success_instance (env : Env) (h : Trace) p evs :
  Start env h = (Ret (Some p, None), evs) ->
  exists root c0 pid errp outp db pre,
    In (EvTempDir "mysqltest" (Ok root)) evs
    /\ dir p = root
    /\ sockFile p = path_Join env (path_Join env root "sock") "mysql.sock"
    /\ spawns evs = [(c0, Ok pid)]
    /\ cmd p = Some {| Args := Args c0; Process := Some pid |}
    /\ In (EvStderrPipe c0 (Ok errp)) evs /\ stderr p = Some errp
    /\ In (EvStdoutPipe c0 (Ok outp)) evs /\ stdout p = Some outp
    /\ DB p = Some db
    /\ evs = pre ++ [EvSqlOpen (makeDSN (sockFile p) "test") (Ok db);
                     EvPing db None]
    /\ closes evs = [] /\ count is_Signal evs = 0
    /\ count is_Wait evs = 0 /\ count is_RemoveAll evs = 0.
Proof.
  revert p evs. run_go.
  all: intros p' evs' Hrun; finish_full Hrun.
  all: injection Hrun as <- <-.
  all: match goal with
       | H : fst _ = None |- _ => rewrite H in Hlast
       end.
  all: destruct Hlast as (pre & db & -> & Hdb).
  all: rewrite forallb_app in Hq; apply andb_prop in Hq as [Hq _].
  all: silence.
  all: destruct Hsame as (Hdir & Hcmd & Herr & Hout & _ & _ & Hsock).
  all: cbn in Hdir, Hcmd, Herr, Hout, Hsock.
  all: rewrite ?app_nil_r.
  all: do 7 eexists.
  all: split; [left; reflexivity|].
  all: split; [exact Hdir|]; split; [exact Hsock|].
  all: split; [cbn_trace; rewrite spawns_app, Hs; reflexivity|].
  all: split; [exact Hcmd|].
  all: split; [cbn; auto 15|]; split; [exact Herr|].
  all: split; [cbn; auto 15|]; split; [exact Hout|].
  all: split; [exact Hdb|].
  all: split; [rewrite Hsock, !app_comm_cons; reflexivity|].
  all: cbn_trace; rewrite ?closes_app, ?count_app, ?Hcl, ?Hsg, ?Hwt, ?Hr.
  all: repeat split; reflexivity.
Qed.

(** X5: when [Start] fails after having started the server, all 1000
    connection attempts and 999 sleeps were made, and the error it returns
    is "Failed to connect to test DB: e", followed by what was read from
    the two pipes, where [e] is the error of the last attempt (its
    [sql.Open] or its ping), which is directly followed by the steps of
    [abort]. *)
Theorem Start_reports_last_attempt (env : Env) (h : Trace) c pid err evs :
  Start env h = (Ret (None, Some err), evs) ->
  In (c, Ok pid) (spawns evs) ->
  exists pre e sr wr errp outp serr sout dsn,
    count is_SqlOpen evs = 1000
    /\ count is_Sleep evs = 999
    /\ (evs = pre ++ [EvSqlOpen dsn (Err e)]
              ++ [EvSignal pid Interrupt sr; EvWait pid wr;
                  EvReadAll errp serr; EvReadAll outp sout;
                  EvClose errp; EvClose outp]
        \/ exists db,
             evs = pre ++ [EvSqlOpen dsn (Ok db); EvPing db (Some e)]
                   ++ [EvSignal pid Interrupt sr; EvWait pid wr;
                       EvReadAll errp serr; EvReadAll outp sout;
                       EvClose errp; EvClose outp])
    /\ err = "Failed to connect to test DB: " +:+ e +:+ newline +:+ "OUT: "
             +:+ sout +:+ newline +:+ "ERR: " +:+ serr.
Proof.
  revert c pid err evs. run_go.
  all: intros c pid err' evs' Hrun.
  all: try discriminate Hrun.
  all: finish_full Hrun.
  all: injection Hrun as <- <-.
  all: try (cbn; intros []; fail).
  all: match goal with
       | H : fst _ = Some _ |- _ => rewrite H in Hlast
       end.
  all: destruct Hlast as (pre & Hopens & Hsleeps & Hlast).
  all: silence.
  all: rewrite ?app_nil_r; cbn_trace; rewrite spawns_app, Hs; cbn.
  all: intros [[= <- <-]|[]].
  all: do 9 eexists.
  all: rewrite !count_app, Hopens, Hsleeps.
  all: split; [reflexivity|]; split; [reflexivity|].
  all: (split; [|reflexivity]).
  all: destruct Hlast as [-> | (db & ->)];
    [ left | right; exists db ];
    rewrite <- app_assoc, !app_comm_cons; reflexivity.
Qed.

Lemma removed_In (l : list Event) (d : string) r :
  In (EvRemoveAll d r) l -> removed l d = true.
Proof.
  intros Hin. unfold removed. apply existsb_exists.
  exists (EvRemoveAll d r). split; [exact Hin | apply String.eqb_refl].
Qed.

Lemma Stop_events_shape (env : Env) (p : MySQL) (h : Trace) :
  exists pre rm,
    snd (Stop env (Some p) h) = pre ++ [EvRemoveAll (dir p) rm]
    /\ count is_TempDir pre = 0.
Proof.
  unfold_go. simpl_go.
  repeat step_go.
  all: eexists; eexists; (split; [split_last | reflexivity]).
Qed.

Lemma Start_success_roots (env : Env) (h : Trace) p evs :
  Start env h = (Ret (Some p, None), evs) ->
  exists tail,
    evs = EvTempDir "mysqltest" (Ok (dir p)) :: tail
    /\ count is_TempDir tail = 0 /\ count is_RemoveAll tail = 0.
Proof.
  revert p evs. run_go.
  all: intros p' evs' Hrun; finish_full Hrun.
  all: injection Hrun as <- <-.
  all: silence.
  all: destruct Hsame as (Hdir & _); cbn in Hdir.
  all: rewrite ?app_nil_r, Hdir.
  all: eexists; split; [reflexivity|].
  all: cbn_trace; rewrite ?count_app, ?Htd, ?Hr; split; reflexivity.
Qed.

(** X7: a successful [Start] leaves exactly one storage root behind, the
    [dir] of its instance, and any later [Stop] of that instance removes
    it: after [Start] and [Stop] no root is left over. *)
Theorem Start_then_Stop_leaves_nothing (env : Env) (h : Trace) p evs :
  Start env h = (Ret (Some p, None), evs) ->
  leftover_roots evs = [dir p]
  /\ forall h', leftover_roots (evs ++ snd (Stop env (Some p) h')) = [].
Proof.
  intros Hrun.
  destruct (Start_success_roots _ _ _ _ Hrun) as (tail & -> & Htd & Hr).
  split.
  - cbn [leftover_roots].
    now rewrite removed_none, leftover_none.
  - intros h'.
    destruct (Stop_events_shape env p h') as (pre & rm & -> & Htd').
    cbn [app leftover_roots].
    erewrite removed_In, leftover_none; [reflexivity | | ].
    + rewrite !count_app, Htd, Htd'. reflexivity.
    + apply in_or_app. right. apply in_or_app. right. left. reflexivity.
Qed.

(** X8: whatever happens, [Start] sleeps for at most 999 times 10 ms,
    that is 9.99 s, in all. *)
Theorem Start_sleeps_under_ten_seconds (env : Env) (h : Trace) :
  (0 <= total_sleep (snd (Start env h)) <= 999 * (10 * Millisecond))%Z.
Proof.
  start_run r evs Hrun. revert r evs Hrun.
  run_go.
  all: intros r evs Hrun; finish_full Hrun.
  all: injection Hrun as <- <-.
  all: silence.
  all: rewrite ?app_nil_r; cbn_trace.
  all: rewrite ?total_sleep_app, ?Hts; cbn_trace.
  all: unfold Millisecond; lia.
Qed.

(** X10: every [sql.Open] of [Start] gets the same data source name: user
    root, the unix socket [sock/mysql.sock] under the storage root that
    this run allocated, database test. *)
Theorem Start_connects_to_its_own_socket (env : Env) (h : Trace) :
  Forall (fun dsn =>
            exists root,
              In (EvTempDir "mysqltest" (Ok root)) (snd (Start env h))
              /\ dsn = "root@unix("
                       +:+ path_Join env (path_Join env root "sock")
                             "mysql.sock"
                       +:+ ")/test")
    (opens (snd (Start env h))).
Proof.
  start_run r evs Hrun. revert r evs Hrun.
  run_go.
  all: intros r evs Hrun; finish_full Hrun.
  all: injection Hrun as <- <-.
  all: silence.
  all: rewrite ?app_nil_r; cbn_trace.
  all: try apply Forall_nil_2.
  all: rewrite ?opens_app; cbn_trace; rewrite ?app_nil_r.
  all: eapply Forall_impl; [exact Hdsn|].
  all: intros dsn ->; eexists; split; [left; reflexivity|reflexivity].
Qed.

(** ** [Stop], further *)

(** X6: [Stop] closes the pipes of the instance, [stderr] first, exactly
    when it returns nil; when the shutdown command or the wait fails, or
    [Stop] panics, no pipe is closed.  It runs one command, starts none and
    sends no signal. *)
Theorem Stop_closes_pipes_on_success_only (env : Env) (p : MySQL)
    (h : Trace) :
  closes (snd (Stop env (Some p) h))
  = match fst (Stop env (Some p) h) with
    | Ret None => pipes_of p
    | _ => []
    end
  /\ count is_Signal (snd (Stop env (Some p) h)) = 0
  /\ length (commands (snd (Stop env (Some p) h))) = 1
  /\ spawns (snd (Stop env (Some p) h)) = [].
Proof.
  unfold pipes_of. unfold_go. simpl_go.
  repeat step_go.
  all: repeat split; reflexivity.
Qed.

(** ** [pgtest.Stop] *)

(** X13: [pgtest.Stop] on a non-nil instance ends with the one removal
    of its storage root on every path, runs no command, and returns the
    error of the interrupt signal or else of the wait, whatever the removal
    answered; without a started process it panics (after which the removal
    still runs).  Unlike [Stop] above it has no nil guard: on a nil instance
    it panics and removes nothing. *)
Theorem PGTest_Stop_always_removes_storage (env : Env) (p : PGTest.PG)
    (h : Trace) :
  PGTest.Stop env None h = (Panic nil_dereference, [])
  /\ exists pre rm,
    snd (PGTest.Stop env (Some p) h) = pre ++ [EvRemoveAll (PGTest.dir p) rm]
    /\ count is_RemoveAll pre = 0
    /\ commands pre = []
    /\ fst (PGTest.Stop env (Some p) h) =
       match PGTest.cmd p with
       | Some c =>
           match Process c with
           | Some pid =>
               match env_Signal env h pid Interrupt with
               | Some err => Ret (Some err)
               | None =>
                   match env_Wait env (h ++ [EvSignal pid Interrupt None])
                           pid with
                   | Some err => Ret (Some err)
                   | None => Ret None
                   end
               end
           | None => Panic nil_dereference
           end
       | None => Panic nil_dereference
       end.
Proof.
  split; [reflexivity|].
  unfold PGTest.Stop. unfold_go. simpl_go.
  repeat (step_go; rewrite ?app_nil_r).
  all: eexists; eexists; (split; [split_last|]); repeat split; reflexivity.
Qed.

(** ** [strings.Contains] *)

Lemma HasPrefix_spec (s prefix : string) :
  strings_HasPrefix s prefix = true <-> exists post, s = prefix +:+ post.
Proof.
  revert s. induction prefix as [|c prefix IH]; intros s.
  - split; [intros _; now exists s | now destruct s].
  - destruct s as [|x s]; cbn [strings_HasPrefix].
    + split; [discriminate | intros (post & H); discriminate H].
    + rewrite andb_true_iff, IH, Ascii.eqb_eq. split.
      * intros (-> & post & ->). now exists post.
      * intros (post & H). injection H as -> ->. eauto.
Qed.

(** X9: [strings.Contains], by which [Start] tells MariaDB from MySQL, is
    true exactly when the marker occurs somewhere in the output. *)
Theorem Contains_spec (s substr : string) :
  strings_Contains s substr = true <-> contains s substr.
Proof.
  unfold contains. induction s as [|x s IH]; cbn [strings_Contains].
  - rewrite orb_false_r, HasPrefix_spec. split.
    + intros (post & ->). now exists EmptyString, post.
    + intros ([|c pre] & post & H); [now exists post | discriminate H].
  - rewrite orb_true_iff, HasPrefix_spec, IH. split.
    + intros [(post & ->) | (pre & post & ->)].
      * now exists EmptyString, post.
      * now exists (String x pre), post.
    + intros ([|c pre] & post & H).
      * left. now exists post.
      * right. injection H as -> ->. eauto.
Qed.

(** X12: the server is started after the version probe and the bootstrap
    (two commands) and before any connection attempt or sleep; after it no
    other command is run or started. *)
Theorem Start_polls_after_spawn (env : Env) (h : Trace) c r :
  In (c, r) (spawns (snd (Start env h))) ->
  exists pre post,
    snd (Start env h) = pre ++ [EvCmdStart c r] ++ post
    /\ length (commands pre) = 2 /\ opens pre = []
    /\ count is_Sleep pre = 0
    /\ commands post = [] /\ spawns post = [].
Proof.
  start_run r0 evs Hrun. revert r0 evs Hrun c r.
  run_go.
  all: intros r0 evs Hrun c r Hin; finish_full Hrun.
  all: injection Hrun as <- <-.
  all: try (cbn in Hin; destruct Hin; fail).
  all: silence.
  all: rewrite ?app_nil_r in *; cbn in Hin;
    rewrite ?spawns_app in Hin; try rewrite Hs in Hin; cbn in Hin.
  all: destruct Hin as [[= <- <-]|[]].
  all: match goal with
       | |- context [EvMkdirAll _ _ _ :: EvMkdirAll _ _ _ :: EvChmod _ _ _
                       :: _] =>
           eexists [_; _; _; _; _; _; _; _; _; _; _]
       | _ => eexists [_; _; _; _; _; _; _; _]
       end; eexists.
  all: split; [reflexivity|].
  all: cbn_trace; rewrite ?commands_app, ?spawns_app, ?Hc, ?Hs.
  all: repeat split; reflexivity.
Qed.

(** ** Runs for the further properties *)

Lemma Start_without_binaries_witness :
  commands (snd (Start (world not_installed) [])) = []
  /\ spawns (snd (Start (world not_installed) [])) = []
  /\ exists err,
       fst (Start (world not_installed) []) = Ret (None, Some err)
       /\ (writes (snd (Start (world not_installed) [])) <> [] ->
           err = not_installed_msg).
Proof.
  apply (Start_without_binaries (world not_installed) []).
  intros h' file. eexists. reflexivity.
Defined.

(** The config file cannot be written, and [Start] succeeds all the same. *)
Lemma Start_survives_unwritten_config :
  exists p e,
    fst (Start disk_full []) = Ret (Some p, None)
    /\ writes (snd (Start disk_full []))
       = [("/tmp/mysqltest810067242/my.cnf",
           config "/tmp/mysqltest810067242/data"
             "/tmp/mysqltest810067242/sock" "/tmp/mysqltest810067242",
           mode_0644, Some e)].
Proof. do 2 eexists. split; vm_compute; reflexivity. Qed.

Lemma Start_as_self_is_direct_witness :
  count is_Chmod (snd (Start (world healthy) [])) = 0
  /\ count is_Chown (snd (Start (world healthy) [])) = 0
  /\ Forall (fun c => ~ via_su c /\ Process c = None)
       (command_lines (snd (Start (world healthy) [])))
  /\ (forall p, fst (Start (world healthy) []) = Ret (Some p, None) ->
      isRoot p = false
      /\ forall h', Forall (fun c => ~ via_su c)
           (command_lines (snd (Stop (world healthy) (Some p) h')))).
Proof.
  apply (Start_as_self_is_direct (world healthy) [] (mkUser "tester" "0" "0")).
  - reflexivity.
  - discriminate.
Defined.

Lemma Start_as_root_hands_over_storage_witness :
  exists u uid gid root pre post,
    env_Lookup (world healthy_root) [] "mysql" = Ok u
    /\ env_ParseInt (world healthy_root) (Uid u) = Ok uid
    /\ env_ParseInt (world healthy_root) (Gid u) = Ok gid
    /\ snd (Start (world healthy_root) [])
       = pre ++ [EvChmod root mode_0711 None;
                 EvChown (path_Join (world healthy_root) root "data")
                   uid gid None;
                 EvChown (path_Join (world healthy_root) root "sock")
                   uid gid None] ++ post
    /\ commands pre = [] /\ In (EvTempDir "mysqltest" (Ok root)) pre.
Proof.
  apply (Start_as_root_hands_over_storage (world healthy_root) []
           (mkUser "root" "0" "0")).
  - reflexivity.
  - reflexivity.
  - vm_compute. discriminate.
Defined.

Lemma Start_success_instance_witness :
  exists root c0 pid errp outp db pre,
    In (EvTempDir "mysqltest" (Ok root)) (snd healthy_root_run)
    /\ dir root_instance = root
    /\ sockFile root_instance
       = path_Join (world healthy_root)
           (path_Join (world healthy_root) root "sock") "mysql.sock"
    /\ spawns (snd healthy_root_run) = [(c0, Ok pid)]
    /\ cmd root_instance = Some {| Args := Args c0; Process := Some pid |}
    /\ In (EvStderrPipe c0 (Ok errp)) (snd healthy_root_run)
    /\ stderr root_instance = Some errp
    /\ In (EvStdoutPipe c0 (Ok outp)) (snd healthy_root_run)
    /\ stdout root_instance = Some outp
    /\ DB root_instance = Some db
    /\ snd healthy_root_run
       = pre ++ [EvSqlOpen (makeDSN (sockFile root_instance) "test") (Ok db);
                 EvPing db None]
    /\ closes (snd healthy_root_run) = []
    /\ count is_Signal (snd healthy_root_run) = 0
    /\ count is_Wait (snd healthy_root_run) = 0
    /\ count is_RemoveAll (snd healthy_root_run) = 0.
Proof.
  apply (Start_success_instance (world healthy_root) []).
  vm_compute. reflexivity.
Defined.

Lemma Start_reports_last_attempt_witness :
  exists pre e sr wr errp outp serr sout dsn,
    count is_SqlOpen (snd never_ready_run) = 1000
    /\ count is_Sleep (snd never_ready_run) = 999
    /\ (snd never_ready_run
        = pre ++ [EvSqlOpen dsn (Err e)]
              ++ [EvSignal 4242%Z Interrupt sr; EvWait 4242%Z wr;
                  EvReadAll errp serr; EvReadAll outp sout;
                  EvClose errp; EvClose outp]
        \/ exists db,
             snd never_ready_run
             = pre ++ [EvSqlOpen dsn (Ok db); EvPing db (Some e)]
                   ++ [EvSignal 4242%Z Interrupt sr; EvWait 4242%Z wr;
                       EvReadAll errp serr; EvReadAll outp sout;
                       EvClose errp; EvClose outp])
    /\ never_ready_msg
       = "Failed to connect to test DB: " +:+ e +:+ newline +:+ "OUT: "
         +:+ sout +:+ newline +:+ "ERR: " +:+ serr.
Proof.
  apply (Start_reports_last_attempt (world never_ready) [] mysqld_safe).
  - vm_compute. reflexivity.
  - vm_compute. left. reflexivity.
Defined.

Lemma Start_then_Stop_leaves_nothing_witness :
  leftover_roots (snd healthy_root_run) = [dir root_instance]
  /\ forall h',
       leftover_roots
         (snd healthy_root_run
          ++ snd (Stop (world healthy_root) (Some root_instance) h')) = [].
Proof.
  apply (Start_then_Stop_leaves_nothing (world healthy_root) []).
  vm_compute. reflexivity.
Defined.

Lemma Start_polls_after_spawn_witness :
  exists pre post,
    snd (Start (world healthy_root) [])
    = pre ++ [EvCmdStart su_mysqld_safe (Ok 4242%Z)] ++ post
    /\ length (commands pre) = 2 /\ opens pre = []
    /\ count is_Sleep pre = 0
    /\ commands post = [] /\ spawns post = [].
Proof.
  apply (Start_polls_after_spawn (world healthy_root) []).
  vm_compute. left. reflexivity.
Defined.
